(** * fastboot tasks (fastboot/task.cpp): a shallow embedding

    The tasks of [task.cpp] talk to a tethered device through the fastboot
    driver ([fp->fb]), read images from the host ([fp->source]) and call
    helpers of [fastboot.cpp].  Here a task is a function on an explicit
    state: the world outside the program (device and host, abstract) and the
    log of the calls the task has made so far.  [die] and [syntax_error]
    terminate the process; they are the two fatal outcomes. *)

From Stdlib Require Import ZArith String List Bool Lia.
From stdpp Require Import base list strings.
Import ListNotations.

Local Open Scope Z_scope.
Local Open Scope string_scope.
Local Open Scope list_scope.

(** ** Data *)

(** The image behind a [SparsePtr]: its logical bytes. *)
Definition Sparse := list Byte.byte.

(** What a task asks of the outside: the methods of the fastboot driver
    reached through [fp->fb], and the helpers of [fastboot.cpp] that act on
    the device. *)
Inductive Event : Type :=
  | GetVar (key : string)
  | RebootTo (target : string)
  | Reboot
  | WaitForDisconnect
  | Download (name : string) (fd : Z) (size : Z)
  | RawCommand (cmd : string) (msg : string)
  | Erase (partition : string)
  | ResizePartition (partition : string) (size : string)
  | DeletePartition (partition : string)
  | FlashPartition (partition : string) (s : Sparse)
  | do_flash (pname : string) (fname : string) (apply_vbmeta : bool)
  | reboot_to_userspace_fastboot
  | fb_perform_format (partition : string) (skip_if_not_supported : Z)
      (type_override : string) (size_override : string) (fs_options : Z).

(** The fields of [FlashingPlan] that [task.cpp] reads.  The driver [fb] and
    the image [source] are part of the world. *)
Record FlashingPlan : Type := {
  slot : string;
  current_slot : string;
  wants_wipe : bool;
  fs_options : Z
}.

(** [Image] is declared in [fastboot.h]; [task.cpp] reads [img_name] and
    [optional_if_no_image], and [part_name] is the base partition name that
    [GetPartitionName] resolves.  An [ImageEntry] pairs an image with a
    slot. *)
Record Image : Type := {
  img_name : string;
  part_name : string;
  optional_if_no_image : bool
}.

Definition ImageEntry : Type := Image * string.

(** ** The world outside the program *)

(** The device and the host, as the tasks see them.  Queries and predicates
    read the world; a command changes it.  The helpers of [fastboot.cpp]
    that [task.cpp] calls are not among the sources: the predicates
    ([is_userspace_fastboot], [supports_AB], [should_flash_in_userspace],
    [is_logical]), [get_file_size] and [GetPartitionName] are taken as
    given. *)
Class Device (World : Type) : Type := {
  (** the effect of a command on device and host *)
  effect : Event -> World -> World;
  (** [fb->GetVar(key, &val)]: [Some val] when it returns [SUCCESS] *)
  getvar : World -> string -> option string;
  (** [fp->source->OpenFile(name)]: a negative descriptor when absent *)
  OpenFile : World -> string -> Z;
  get_file_size : World -> Z -> Z;
  is_userspace_fastboot : World -> bool;
  supports_AB : World -> bool;
  should_flash_in_userspace : World -> string -> bool;
  is_logical : World -> string -> bool;
  (** the concrete partition names [do_for_partitions] visits for a
      partition name, a slot specifier and the [force_slot] flag *)
  resolve_partitions : World -> string -> string -> bool -> list string;
  (** the largest payload the transport takes in one transfer *)
  max_download_size : World -> Z;
  GetPartitionName : ImageEntry -> string -> string
}.

(** [SuperFlashHelper] (super_flash_helper.cpp): the accumulator of the
    super layout.  A method that returns [bool] and updates the object
    returns the flag and the updated object. *)
Class SuperFlashHelper (World Helper : Type) : Type := {
  make_helper : World -> Helper;
  Open : Helper -> Z -> bool * Helper;
  AddPartition : Helper -> string -> string -> bool -> bool * Helper;
  GetSparseLayout : Helper -> option Sparse * Helper;
  WillFlash : Helper -> string -> bool
}.

(** ** State, outcomes and the task monad *)

Inductive Exit : Type := Die | SyntaxError.

Section Monad.
Context {World : Type} `{Device World}.

Record State : Type := {
  world : World;
  trace : list Event
}.

Inductive Outcome (A : Type) : Type :=
  | Done (a : A) (s : State)
  | Fatal (e : Exit) (msg : string) (s : State).

Definition M (A : Type) : Type := State -> Outcome A.

Definition ret {A} (a : A) : M A := fun s => Done A a s.

Definition bind {A B} (m : M A) (k : A -> M B) : M B :=
  fun s => match m s with
           | Done _ a s' => k a s'
           | Fatal _ e msg s' => Fatal B e msg s'
           end.

(** a call that changes the device: logged, and its effect applied *)
Definition act (e : Event) (s : State) : State :=
  {| world := effect e (world s); trace := trace s ++ [e] |}.

(** a call that only asks: logged *)
Definition log (e : Event) (s : State) : State :=
  {| world := world s; trace := trace s ++ [e] |}.

Definition call (e : Event) : M unit := fun s => Done unit tt (act e s).

Definition query (key : string) : M (option string) :=
  fun s => Done _ (getvar (world s) key) (log (GetVar key) s).

Definition observe {A} (f : World -> A) : M A :=
  fun s => Done A (f (world s)) s.

Definition die {A} (msg : string) : M A := fun s => Fatal A Die msg s.

Definition syntax_error {A} (msg : string) : M A :=
  fun s => Fatal A SyntaxError msg s.

Fixpoint for_each {A} (f : A -> M unit) (l : list A) : M unit :=
  match l with
  | [] => ret tt
  | x :: l' => bind (f x) (fun _ => for_each f l')
  end.
End Monad.

Arguments Done {World A} a s.
Arguments Fatal {World A} e msg s.

Declare Scope task_scope.
Delimit Scope task_scope with task.
Notation "x <- c ;; k" := (bind c (fun x => k))
  (at level 100, c at next level, right associativity) : task_scope.
Notation "c ;;; k" := (bind c (fun _ => k))
  (at level 100, right associativity) : task_scope.
Local Open Scope task_scope.

(** Modelled from the spec: [do_for_partitions] of fastboot.cpp is not among
    the sources.  The resolver maps a partition name and a slot specifier to
    the ordered concrete partition names, and the operation is invoked for
    each resolved name. *)
Definition do_for_partitions {World} `{Device World}
    (part slot : string) (func : string -> M unit) (force_slot : bool) : M unit :=
  ps <- observe (fun w => resolve_partitions w part slot force_slot) ;;
  for_each func ps.

Definition newline : string := String (Ascii.ascii_of_nat 10) EmptyString.

(** ** FlashTask *)

Module FlashTask.
Record t : Type := {
  pname_ : string;
  fname_ : string;
  slot_ : string;
  apply_vbmeta_ : bool
}.

Definition FlashTask (_slot _pname _fname : string) (apply_vbmeta : bool) : t :=
  {| pname_ := _pname; fname_ := _fname; slot_ := _slot;
     apply_vbmeta_ := apply_vbmeta |}.

(** the text handed to [die] *)
Definition remediation : string :=
  "The partition you are trying to flash is dynamic, and "
  +:+ "should be flashed via fastbootd. Please run:" +:+ newline
  +:+ newline
  +:+ "    fastboot reboot fastboot" +:+ newline
  +:+ newline
  +:+ "And try again. If you are intentionally trying to "
  +:+ "overwrite a fixed partition, use --force.".

Section Run.
Context {World : Type} `{Device World}.

(** the lambda [flash] of [FlashTask::Run] *)
Definition flash (self : t) (partition : string) : M unit :=
  refuse <- observe (fun w => should_flash_in_userspace w partition
                              && negb (is_userspace_fastboot w)) ;;
  (if refuse then die remediation else ret tt) ;;;
  call (do_flash partition (fname_ self) (apply_vbmeta_ self)).

Definition Run (self : t) : M unit :=
  do_for_partitions (pname_ self) (slot_ self) (flash self) true.
End Run.
End FlashTask.

(** ** RebootTask *)

Module RebootTask.
Record t : Type := {
  reboot_target_ : string;
  fp_ : FlashingPlan
}.

Section Run.
Context {World : Type} `{Device World}.

Definition Run (self : t) : M unit :=
  if String.eqb (reboot_target_ self) "userspace"
     || String.eqb (reboot_target_ self) "fastboot" then
    userspace <- observe is_userspace_fastboot ;;
    if negb userspace then
      call reboot_to_userspace_fastboot ;;;
      call WaitForDisconnect
    else ret tt
  else if String.eqb (reboot_target_ self) "recovery" then
    call (RebootTo "recovery") ;;;
    call WaitForDisconnect
  else if String.eqb (reboot_target_ self) "bootloader" then
    call (RebootTo "bootloader") ;;;
    call WaitForDisconnect
  else if String.eqb (reboot_target_ self) EmptyString then
    call Reboot ;;;
    call WaitForDisconnect
  else
    syntax_error ("unknown reboot target " +:+ reboot_target_ self).
End Run.
End RebootTask.

(** ** The vector idiom [v.erase(std::remove_if(v.begin(), v.end(), pred), v.end())]

    Iterators are indices into the vector.  [remove_if] is the algorithm of
    the C++ library: [find_if] for the first element to drop, then one pass
    that moves every kept element down to the write position and returns the
    new logical end.  A moved-from element is never read again, so the move
    is modelled as a copy. *)

Section Vector.
Context {A : Type}.

Fixpoint find_if (pred : A -> bool) (v : list A) : nat :=
  match v with
  | [] => 0%nat
  | x :: v' => if pred x then 0%nat else S (find_if pred v')
  end.

(** [n] elements are left to visit, from index [i] on *)
Fixpoint remove_if_loop (pred : A -> bool) (n : nat) (v : list A)
    (first i : nat) : list A * nat :=
  match n with
  | O => (v, first)
  | S n' =>
      match v !! i with
      | Some x =>
          if pred x then remove_if_loop pred n' v first (S i)
          else remove_if_loop pred n' (<[first := x]> v) (S first) (S i)
      | None => (v, first)
      end
  end.

Definition remove_if (pred : A -> bool) (v : list A) : list A * nat :=
  let first := find_if pred v in
  if (first <? length v)%nat
  then remove_if_loop pred (length v - S first) v first (S first)
  else (v, first).

(** [v.erase(first, last)] *)
Definition erase (v : list A) (first last : nat) : list A :=
  take first v ++ drop last v.

Definition erase_remove_if (pred : A -> bool) (v : list A) : list A :=
  let '(v', new_end) := remove_if pred v in
  erase v' new_end (length v').

(** what the idiom is meant to leave: the elements that fail [pred], in
    their order *)
Definition kept (pred : A -> bool) (v : list A) : list A :=
  List.filter (fun x => negb (pred x)) v.
End Vector.

(** ** Sparse images and their transfer *)

(** Modelled from the spec: [sparse_file_len] of libsparse is not among the
    sources; it is the size of the computed layout. *)
Definition sparse_file_len (s : Sparse) : Z := Z.of_nat (length s).

(** Modelled from the spec: [get_sparse_limit] of fastboot.cpp is not among
    the sources.  The size is compared against the transport's maximum
    single-transfer payload: the limit when the size exceeds it, zero
    otherwise. *)
Definition get_sparse_limit {World} `{Device World} (w : World) (size : Z) : Z :=
  if (size >? max_download_size w)%Z then max_download_size w else 0.

(** Modelled from the spec: [resparse_file] of fastboot.cpp is not among the
    sources.  It splits an image into an ordered chunk sequence, each chunk
    at most [max_size] bytes, lossless when concatenated in order. *)
Fixpoint split_chunks (fuel : nat) (max_size : nat) (s : Sparse) : list Sparse :=
  match fuel with
  | O => []
  | S fuel' =>
      match s with
      | [] => []
      | _ :: _ => take max_size s :: split_chunks fuel' max_size (drop max_size s)
      end
  end.

Definition resparse_file (s : Sparse) (max_size : Z) : list Sparse :=
  split_chunks (length s) (Z.to_nat max_size) s.

(** Modelled from the spec: [flash_partition_files] of fastboot.cpp is not
    among the sources.  The chunks are transferred to the named partition in
    production order. *)
Definition flash_partition_files {World} `{Device World}
    (partition : string) (files : list Sparse) : M unit :=
  for_each (fun f => call (FlashPartition partition f)) files.

(** the conversion of a 64-bit value to [int] *)
Definition to_int (z : Z) : Z := (z + 2 ^ 31) mod 2 ^ 32 - 2 ^ 31.

(** ** FlashSuperLayoutTask *)

Module FlashSuperLayoutTask.
Record t {Helper : Type} : Type := {
  super_name_ : string;
  helper_ : Helper;
  sparse_layout_ : Sparse
}.
Arguments t : clear implicits.

Section Run.
Context {World Helper : Type} `{Device World} `{SuperFlashHelper World Helper}.

Definition Run (self : t Helper) : M unit :=
  limit <- observe (fun w =>
    to_int (get_sparse_limit w (sparse_file_len (sparse_layout_ self)))) ;;
  let files :=
    if negb (limit =? 0)%Z then resparse_file (sparse_layout_ self) limit
    else [sparse_layout_ self] in
  (* Send the data to the device. *)
  flash_partition_files (super_name_ self) files.

(** the loop over [os_images] that registers every entry *)
Fixpoint add_partitions (fp : FlashingPlan) (helper : Helper)
    (os_images : list ImageEntry) : option Helper :=
  match os_images with
  | [] => Some helper
  | entry :: rest =>
      let partition := GetPartitionName entry (current_slot fp) in
      let image := fst entry in
      match AddPartition helper partition (img_name image)
                         (optional_if_no_image image) with
      | (false, _) => None
      | (true, helper') => add_partitions fp helper' rest
      end
  end.

(** the predicate of the lambda [remove_if_callback], on the helper
    the task owns *)
Definition covered (fp : FlashingPlan) (task : t Helper)
    (entry : ImageEntry) : bool :=
  WillFlash (helper_ task) (GetPartitionName entry (current_slot fp)).

Definition Initialize (fp : FlashingPlan) (os_images : list ImageEntry)
    : M (option (t Helper) * list ImageEntry) :=
  ab <- observe supports_AB ;;
  if negb ab then ret (None, os_images)
  else if String.eqb (slot fp) "all" then ret (None, os_images)
  else
    (* Does this device use dynamic partitions at all? *)
    fd <- observe (fun w => OpenFile w "super_empty.img") ;;
    if (fd <? 0)%Z then ret (None, os_images)
    else
      (* Try to find whether there is a super partition. *)
      r <- query "super-partition-name" ;;
      let super_name := match r with Some v => v | None => "super" end in
      r <- query ("partition-size:" +:+ super_name) ;;
      match r with
      | None => ret (None, os_images)
      | Some partition_size_str =>
          helper <- observe make_helper ;;
          match Open helper fd with
          | (false, _) => ret (None, os_images)
          | (true, helper) =>
              match add_partitions fp helper os_images with
              | None => ret (None, os_images)
              | Some helper =>
                  match GetSparseLayout helper with
                  | (None, _) => ret (None, os_images)
                  | (Some s, helper) =>
                      (* Remove images that we already flashed. *)
                      let remove_if_callback (entry : ImageEntry) :=
                        WillFlash helper
                          (GetPartitionName entry (current_slot fp)) in
                      ret (Some {| super_name_ := super_name;
                                   helper_ := helper;
                                   sparse_layout_ := s |},
                           erase_remove_if remove_if_callback os_images)
                  end
              end
          end
      end.
End Run.
End FlashSuperLayoutTask.

(** ** UpdateSuperTask *)

Module UpdateSuperTask.
Record t : Type := { fp_ : FlashingPlan }.

Section Run.
Context {World : Type} `{Device World}.

Definition Run (self : t) : M unit :=
  fd <- observe (fun w => OpenFile w "super_empty.img") ;;
  if (fd <? 0)%Z then ret tt
  else
    userspace <- observe is_userspace_fastboot ;;
    (if negb userspace then call reboot_to_userspace_fastboot else ret tt) ;;;
    r <- query "super-partition-name" ;;
    let super_name := match r with Some v => v | None => "super" end in
    size <- observe (fun w => get_file_size w fd) ;;
    call (Download super_name fd size) ;;;
    let command := "update-super:" +:+ super_name in
    let command :=
      if wants_wipe (fp_ self) then command +:+ ":wipe" else command in
    call (RawCommand command "Updating super partition").
End Run.
End UpdateSuperTask.

(** ** ResizeTask *)

Module ResizeTask.
Record t : Type := {
  fp_ : FlashingPlan;
  pname_ : string;
  size_ : string;
  slot_ : string
}.

Section Run.
Context {World : Type} `{Device World}.

(** the lambda [resize_partition] of [ResizeTask::Run] *)
Definition resize_partition (self : t) (partition : string) : M unit :=
  logical <- observe (fun w => is_logical w partition) ;;
  if logical then call (ResizePartition partition (size_ self)) else ret tt.

Definition Run (self : t) : M unit :=
  do_for_partitions (pname_ self) (slot_ self) (resize_partition self) false.

(** one visit of the loop, as a change of state *)
Definition visit (self : t) (s : State) (partition : string) : State :=
  if is_logical (world s) partition
  then act (ResizePartition partition (size_ self)) s
  else s.
End Run.
End ResizeTask.

(** ** DeleteTask *)

Module DeleteTask.
Record t : Type := { fp_ : FlashingPlan; pname_ : string }.

Definition Run {World} `{Device World} (self : t) : M unit :=
  call (DeletePartition (pname_ self)).
End DeleteTask.

(** ** WipeTask *)

Module WipeTask.
Record t : Type := { fp_ : FlashingPlan; pname_ : string }.

Section Run.
Context {World : Type} `{Device World}.

Definition Run (self : t) : M unit :=
  r <- query ("partition-type:" +:+ pname_ self) ;;
  match r with
  | None => ret tt
  | Some partition_type =>
      if String.eqb partition_type EmptyString then ret tt
      else
        call (Erase (pname_ self)) ;;;
        call (fb_perform_format (pname_ self) 1 partition_type EmptyString
                                (fs_options (fp_ self)))
  end.
End Run.
End WipeTask.

(** ** A concrete device and host, to run the tasks on *)

Module Bench.
Record rig : Type := {
  in_userspace : bool;
  has_slots : bool;
  variables : list (string * string);
  host_files : list (string * Z);
  dynamic : list string;
  download_limit : Z
}.

Fixpoint assoc {A} (k : string) (l : list (string * A)) : option A :=
  match l with
  | [] => None
  | (k', a) :: l' => if String.eqb k k' then Some a else assoc k l'
  end.

Fixpoint position (k : string) (l : list (string * Z)) : option nat :=
  match l with
  | [] => None
  | (k', _) :: l' =>
      if String.eqb k k' then Some 0%nat else option_map S (position k l')
  end.

Definition mem (k : string) (l : list string) : bool :=
  existsb (String.eqb k) l.

Definition set_userspace (b : bool) (w : rig) : rig :=
  {| in_userspace := b; has_slots := has_slots w; variables := variables w;
     host_files := host_files w; dynamic := dynamic w;
     download_limit := download_limit w |}.

Definition suffixed (part slot : string) : string :=
  if String.eqb slot EmptyString then part else part +:+ "_" +:+ slot.

#[global] Instance device : Device rig := {|
  effect e w :=
    match e with
    | reboot_to_userspace_fastboot => set_userspace true w
    | RebootTo _ | Reboot => set_userspace false w
    | _ => w
    end;
  getvar w key := assoc key (variables w);
  OpenFile w name :=
    match position name (host_files w) with
    | Some i => Z.of_nat i + 3
    | None => -1
    end;
  get_file_size w fd :=
    match nth_error (host_files w) (Z.to_nat (fd - 3)) with
    | Some (_, size) => size
    | None => -1
    end;
  is_userspace_fastboot w := in_userspace w;
  supports_AB w := has_slots w;
  should_flash_in_userspace w p := mem p (dynamic w);
  is_logical w p := mem p (dynamic w);
  resolve_partitions w part slot force_slot :=
    if has_slots w then
      if String.eqb slot "all" then [part +:+ "_a"; part +:+ "_b"]
      else if String.eqb slot EmptyString then [part +:+ "_a"]
      else [part +:+ "_" +:+ slot]
    else [part];
  max_download_size w := download_limit w;
  GetPartitionName entry current_slot :=
    suffixed (part_name (fst entry))
      (if String.eqb (snd entry) EmptyString then current_slot else snd entry)
|}.

Record helper : Type := {
  known : list string;
  registered : list string
}.

#[global] Instance super_flash_helper : SuperFlashHelper rig helper := {|
  make_helper w := {| known := dynamic w; registered := [] |};
  Open h fd := ((0 <=? fd)%Z, h);
  AddPartition h partition image optional :=
    if String.eqb image EmptyString && negb optional then (false, h)
    else if mem partition (known h)
         then (true, {| known := known h;
                        registered := registered h ++ [partition] |})
         else (true, h);
  GetSparseLayout h :=
    match registered h with
    | [] => (None, h)
    | _ :: _ => (Some (repeat Byte.x00 (length (registered h))), h)
    end;
  WillFlash h partition := mem partition (registered h)
|}.

(** an A/B phone in bootloader mode, with [system] and [vendor] dynamic *)
Definition phone : rig := {|
  in_userspace := false;
  has_slots := true;
  variables := [("super-partition-name", "super");
                ("partition-size:super", "0x80000000");
                ("partition-type:userdata", "ext4");
                ("partition-type:cache", EmptyString)];
  host_files := [("super_empty.img", 4096)];
  dynamic := ["system_a"; "vendor_a"; "system_b"; "vendor_b"];
  download_limit := 4
|}.

Definition fastbootd : rig := set_userspace true phone.

Definition start (w : rig) : State := {| world := w; trace := [] |}.

Definition plan (slot_spec : string) : FlashingPlan :=
  {| slot := slot_spec; current_slot := "a"; wants_wipe := true;
     fs_options := 0 |}.

Definition image (name : string) : ImageEntry :=
  ({| img_name := name +:+ ".img"; part_name := name;
      optional_if_no_image := false |}, EmptyString).

Definition os_images : list ImageEntry :=
  [image "boot"; image "system"; image "vbmeta"; image "vendor"].

(** the task [Initialize] builds from [os_images] on [phone], slot a *)
Definition super_task : FlashSuperLayoutTask.t helper := {|
  FlashSuperLayoutTask.super_name_ := "super";
  FlashSuperLayoutTask.helper_ :=
    {| known := dynamic phone; registered := ["system_a"; "vendor_a"] |};
  FlashSuperLayoutTask.sparse_layout_ := [Byte.x00; Byte.x00]
|}.

End Bench.

(** ** Transports at the edge of the limit *)






(** ** Reading the loops of [FlashTask::Run] and friends *)

(** the guard of the lambda [flash]: the partition is dynamic and the device
    is not in userspace fastboot *)
Definition flash_refused {World} `{Device World} (w : World) (partition : string) : bool :=
  should_flash_in_userspace w partition && negb (is_userspace_fastboot w).

(** the reboot commands [RebootTask::Run] can send *)
Definition reboot_commands : list Event :=
  [reboot_to_userspace_fastboot; RebootTo "recovery"; RebootTo "bootloader"; Reboot].

(** ** DmaBuffer (libdmabufinfo/include/dmabufinfo/dmabufinfo.h) *)

Module DmaBuffer.
(** [ino_t], [uint64_t] and [pid_t] values are integers; the two vectors
    hold one pid per reference, in the order the references were added. *)
Record t : Type := {
  inode_ : Z;
  size_ : Z;
  count_ : Z;
  exporter_ : string;
  name_ : string;
  fdrefs_ : list Z;
  maprefs_ : list Z
}.

(** the constructor: the reference vectors start empty *)
Definition DmaBuffer (inode size count : Z) (exporter name : string) : t :=
  {| inode_ := inode; size_ := size; count_ := count;
     exporter_ := exporter; name_ := name; fdrefs_ := []; maprefs_ := [] |}.

(** Adds one file descriptor reference for the given pid *)
Definition AddFdRef (self : t) (pid : Z) : t :=
  {| inode_ := inode_ self; size_ := size_ self; count_ := count_ self;
     exporter_ := exporter_ self; name_ := name_ self;
     fdrefs_ := fdrefs_ self ++ [pid]; maprefs_ := maprefs_ self |}.

(** Adds one map reference for the given pid *)
Definition AddMapRef (self : t) (pid : Z) : t :=
  {| inode_ := inode_ self; size_ := size_ self; count_ := count_ self;
     exporter_ := exporter_ self; name_ := name_ self;
     fdrefs_ := fdrefs_ self; maprefs_ := maprefs_ self ++ [pid] |}.

(** Getters for each property *)
Definition size (self : t) : Z := size_ self.
Definition fdrefs (self : t) : list Z := fdrefs_ self.
Definition maprefs (self : t) : list Z := maprefs_ self.
Definition inode (self : t) : Z := inode_ self.
Definition count (self : t) : Z := count_ self.
Definition name (self : t) : string := name_ self.
Definition exporter (self : t) : string := exporter_ self.

(** one call of [AddFdRef] ([true]) or [AddMapRef] ([false]) with a pid *)
Definition add_ref (self : t) (ref : bool * Z) : t :=
  if fst ref then AddFdRef self (snd ref) else AddMapRef self (snd ref).

(** [fdrefs_.size() + maprefs_.size()], an unsigned 64-bit sum *)
Definition total_refs (self : t) : Z :=
  (Z.of_nat (length (fdrefs_ self)) + Z.of_nat (length (maprefs_ self)))
  mod 2 ^ 64.
End DmaBuffer.

(** ** android_dataspace_t and android_transform_t
       (libsystem/include/system/graphics-base-v1.0.h) *)

Module Graphics.
Definition HAL_TRANSFORM_FLIP_H : Z := 1.
Definition HAL_TRANSFORM_FLIP_V : Z := 2.
Definition HAL_TRANSFORM_ROT_90 : Z := 4.
Definition HAL_TRANSFORM_ROT_180 : Z := 3.
Definition HAL_TRANSFORM_ROT_270 : Z := 7.

Definition HAL_DATASPACE_UNKNOWN : Z := 0.
Definition HAL_DATASPACE_ARBITRARY : Z := 1.
Definition HAL_DATASPACE_STANDARD_SHIFT : Z := 16.
Definition HAL_DATASPACE_STANDARD_MASK : Z := 4128768.
Definition HAL_DATASPACE_STANDARD_UNSPECIFIED : Z := 0.
Definition HAL_DATASPACE_STANDARD_BT709 : Z := 65536.
Definition HAL_DATASPACE_STANDARD_BT601_625 : Z := 131072.
Definition HAL_DATASPACE_STANDARD_BT601_625_UNADJUSTED : Z := 196608.
Definition HAL_DATASPACE_STANDARD_BT601_525 : Z := 262144.
Definition HAL_DATASPACE_STANDARD_BT601_525_UNADJUSTED : Z := 327680.
Definition HAL_DATASPACE_STANDARD_BT2020 : Z := 393216.
Definition HAL_DATASPACE_STANDARD_BT2020_CONSTANT_LUMINANCE : Z := 458752.
Definition HAL_DATASPACE_STANDARD_BT470M : Z := 524288.
Definition HAL_DATASPACE_STANDARD_FILM : Z := 589824.
Definition HAL_DATASPACE_STANDARD_DCI_P3 : Z := 655360.
Definition HAL_DATASPACE_STANDARD_ADOBE_RGB : Z := 720896.
Definition HAL_DATASPACE_TRANSFER_SHIFT : Z := 22.
Definition HAL_DATASPACE_TRANSFER_MASK : Z := 130023424.
Definition HAL_DATASPACE_TRANSFER_UNSPECIFIED : Z := 0.
Definition HAL_DATASPACE_TRANSFER_LINEAR : Z := 4194304.
Definition HAL_DATASPACE_TRANSFER_SRGB : Z := 8388608.
Definition HAL_DATASPACE_TRANSFER_SMPTE_170M : Z := 12582912.
Definition HAL_DATASPACE_TRANSFER_GAMMA2_2 : Z := 16777216.
Definition HAL_DATASPACE_TRANSFER_GAMMA2_6 : Z := 20971520.
Definition HAL_DATASPACE_TRANSFER_GAMMA2_8 : Z := 25165824.
Definition HAL_DATASPACE_TRANSFER_ST2084 : Z := 29360128.
Definition HAL_DATASPACE_TRANSFER_HLG : Z := 33554432.
Definition HAL_DATASPACE_RANGE_SHIFT : Z := 27.
Definition HAL_DATASPACE_RANGE_MASK : Z := 939524096.
Definition HAL_DATASPACE_RANGE_UNSPECIFIED : Z := 0.
Definition HAL_DATASPACE_RANGE_FULL : Z := 134217728.
Definition HAL_DATASPACE_RANGE_LIMITED : Z := 268435456.
Definition HAL_DATASPACE_RANGE_EXTENDED : Z := 402653184.
Definition HAL_DATASPACE_SRGB_LINEAR : Z := 512.
Definition HAL_DATASPACE_V0_SRGB_LINEAR : Z := 138477568.
Definition HAL_DATASPACE_V0_SCRGB_LINEAR : Z := 406913024.
Definition HAL_DATASPACE_SRGB : Z := 513.
Definition HAL_DATASPACE_V0_SRGB : Z := 142671872.
Definition HAL_DATASPACE_V0_SCRGB : Z := 411107328.
Definition HAL_DATASPACE_JFIF : Z := 257.
Definition HAL_DATASPACE_V0_JFIF : Z := 146931712.
Definition HAL_DATASPACE_BT601_625 : Z := 258.
Definition HAL_DATASPACE_V0_BT601_625 : Z := 281149440.
Definition HAL_DATASPACE_BT601_525 : Z := 259.
Definition HAL_DATASPACE_V0_BT601_525 : Z := 281280512.
Definition HAL_DATASPACE_BT709 : Z := 260.
Definition HAL_DATASPACE_V0_BT709 : Z := 281083904.
Definition HAL_DATASPACE_DCI_P3_LINEAR : Z := 139067392.
Definition HAL_DATASPACE_DCI_P3 : Z := 155844608.
Definition HAL_DATASPACE_DISPLAY_P3_LINEAR : Z := 139067392.
Definition HAL_DATASPACE_DISPLAY_P3 : Z := 143261696.
Definition HAL_DATASPACE_ADOBE_RGB : Z := 151715840.
Definition HAL_DATASPACE_BT2020_LINEAR : Z := 138805248.
Definition HAL_DATASPACE_BT2020 : Z := 147193856.
Definition HAL_DATASPACE_BT2020_PQ : Z := 163971072.
Definition HAL_DATASPACE_DEPTH : Z := 4096.
Definition HAL_DATASPACE_SENSOR : Z := 4097.

(** the named values of each field of a dataspace *)
Definition standards : list Z :=
  [HAL_DATASPACE_STANDARD_UNSPECIFIED; HAL_DATASPACE_STANDARD_BT709;
   HAL_DATASPACE_STANDARD_BT601_625; HAL_DATASPACE_STANDARD_BT601_625_UNADJUSTED;
   HAL_DATASPACE_STANDARD_BT601_525; HAL_DATASPACE_STANDARD_BT601_525_UNADJUSTED;
   HAL_DATASPACE_STANDARD_BT2020; HAL_DATASPACE_STANDARD_BT2020_CONSTANT_LUMINANCE;
   HAL_DATASPACE_STANDARD_BT470M; HAL_DATASPACE_STANDARD_FILM;
   HAL_DATASPACE_STANDARD_DCI_P3; HAL_DATASPACE_STANDARD_ADOBE_RGB].

Definition transfers : list Z :=
  [HAL_DATASPACE_TRANSFER_UNSPECIFIED; HAL_DATASPACE_TRANSFER_LINEAR;
   HAL_DATASPACE_TRANSFER_SRGB; HAL_DATASPACE_TRANSFER_SMPTE_170M;
   HAL_DATASPACE_TRANSFER_GAMMA2_2; HAL_DATASPACE_TRANSFER_GAMMA2_6;
   HAL_DATASPACE_TRANSFER_GAMMA2_8; HAL_DATASPACE_TRANSFER_ST2084;
   HAL_DATASPACE_TRANSFER_HLG].

Definition ranges : list Z :=
  [HAL_DATASPACE_RANGE_UNSPECIFIED; HAL_DATASPACE_RANGE_FULL;
   HAL_DATASPACE_RANGE_LIMITED; HAL_DATASPACE_RANGE_EXTENDED].

(** the composite dataspaces, each with the standard, transfer and range
    its comment in the header names *)
Definition composites : list (Z * (Z * Z * Z)) :=
  [(HAL_DATASPACE_V0_SRGB_LINEAR,
    (HAL_DATASPACE_STANDARD_BT709, HAL_DATASPACE_TRANSFER_LINEAR, HAL_DATASPACE_RANGE_FULL));
   (HAL_DATASPACE_V0_SCRGB_LINEAR,
    (HAL_DATASPACE_STANDARD_BT709, HAL_DATASPACE_TRANSFER_LINEAR, HAL_DATASPACE_RANGE_EXTENDED));
   (HAL_DATASPACE_V0_SRGB,
    (HAL_DATASPACE_STANDARD_BT709, HAL_DATASPACE_TRANSFER_SRGB, HAL_DATASPACE_RANGE_FULL));
   (HAL_DATASPACE_V0_SCRGB,
    (HAL_DATASPACE_STANDARD_BT709, HAL_DATASPACE_TRANSFER_SRGB, HAL_DATASPACE_RANGE_EXTENDED));
   (HAL_DATASPACE_V0_JFIF,
    (HAL_DATASPACE_STANDARD_BT601_625, HAL_DATASPACE_TRANSFER_SMPTE_170M, HAL_DATASPACE_RANGE_FULL));
   (HAL_DATASPACE_V0_BT601_625,
    (HAL_DATASPACE_STANDARD_BT601_625, HAL_DATASPACE_TRANSFER_SMPTE_170M, HAL_DATASPACE_RANGE_LIMITED));
   (HAL_DATASPACE_V0_BT601_525,
    (HAL_DATASPACE_STANDARD_BT601_525, HAL_DATASPACE_TRANSFER_SMPTE_170M, HAL_DATASPACE_RANGE_LIMITED));
   (HAL_DATASPACE_V0_BT709,
    (HAL_DATASPACE_STANDARD_BT709, HAL_DATASPACE_TRANSFER_SMPTE_170M, HAL_DATASPACE_RANGE_LIMITED));
   (HAL_DATASPACE_DCI_P3_LINEAR,
    (HAL_DATASPACE_STANDARD_DCI_P3, HAL_DATASPACE_TRANSFER_LINEAR, HAL_DATASPACE_RANGE_FULL));
   (HAL_DATASPACE_DCI_P3,
    (HAL_DATASPACE_STANDARD_DCI_P3, HAL_DATASPACE_TRANSFER_GAMMA2_6, HAL_DATASPACE_RANGE_FULL));
   (HAL_DATASPACE_DISPLAY_P3_LINEAR,
    (HAL_DATASPACE_STANDARD_DCI_P3, HAL_DATASPACE_TRANSFER_LINEAR, HAL_DATASPACE_RANGE_FULL));
   (HAL_DATASPACE_DISPLAY_P3,
    (HAL_DATASPACE_STANDARD_DCI_P3, HAL_DATASPACE_TRANSFER_SRGB, HAL_DATASPACE_RANGE_FULL));
   (HAL_DATASPACE_ADOBE_RGB,
    (HAL_DATASPACE_STANDARD_ADOBE_RGB, HAL_DATASPACE_TRANSFER_GAMMA2_2, HAL_DATASPACE_RANGE_FULL));
   (HAL_DATASPACE_BT2020_LINEAR,
    (HAL_DATASPACE_STANDARD_BT2020, HAL_DATASPACE_TRANSFER_LINEAR, HAL_DATASPACE_RANGE_FULL));
   (HAL_DATASPACE_BT2020,
    (HAL_DATASPACE_STANDARD_BT2020, HAL_DATASPACE_TRANSFER_SMPTE_170M, HAL_DATASPACE_RANGE_FULL));
   (HAL_DATASPACE_BT2020_PQ,
    (HAL_DATASPACE_STANDARD_BT2020, HAL_DATASPACE_TRANSFER_ST2084, HAL_DATASPACE_RANGE_FULL))].

(** the dataspaces that predate the three fields *)
Definition legacy : list Z :=
  [HAL_DATASPACE_UNKNOWN; HAL_DATASPACE_ARBITRARY; HAL_DATASPACE_SRGB_LINEAR;
   HAL_DATASPACE_SRGB; HAL_DATASPACE_JFIF; HAL_DATASPACE_BT601_625;
   HAL_DATASPACE_BT601_525; HAL_DATASPACE_BT709; HAL_DATASPACE_DEPTH;
   HAL_DATASPACE_SENSOR].

(** a dataspace put together as the header's comments do,
    [(standard | transfer) | range], and taken apart with the masks *)
Definition compose (standard transfer range : Z) : Z :=
  Z.lor (Z.lor standard transfer) range.

Definition standard_of (dataspace : Z) : Z := Z.land dataspace HAL_DATASPACE_STANDARD_MASK.
Definition transfer_of (dataspace : Z) : Z := Z.land dataspace HAL_DATASPACE_TRANSFER_MASK.
Definition range_of (dataspace : Z) : Z := Z.land dataspace HAL_DATASPACE_RANGE_MASK.
End Graphics.

(** * Properties *)

(** ** The erase-remove idiom keeps, in order, the elements that fail the
    predicate *)

Section VectorFacts.
Context {A : Type}.
Implicit Types (pred : A -> bool) (v : list A).

Lemma kept_app pred v1 v2 : kept pred (v1 ++ v2) = kept pred v1 ++ kept pred v2.
Proof. unfold kept. apply List.filter_app. Qed.

Lemma find_if_le pred v : (find_if pred v <= length v)%nat.
Proof. induction v as [|x v IH]; simpl; [lia|]. destruct (pred x); simpl; lia. Qed.

(** nothing before the position found satisfies the predicate *)
Lemma find_if_prefix pred v :
  kept pred (take (find_if pred v) v) = take (find_if pred v) v.
Proof.
  induction v as [|x v IH]; simpl; [reflexivity|].
  destruct (pred x) eqn:E; simpl; [reflexivity|].
  unfold kept in *. simpl. rewrite E. simpl. now rewrite IH.
Qed.

(** the element found, when there is one, satisfies it *)
Lemma find_if_hit pred v :
  (find_if pred v < length v)%nat ->
  exists x, v !! find_if pred v = Some x /\ pred x = true.
Proof.
  induction v as [|x v IH]; simpl; [lia|].
  destruct (pred x) eqn:E; simpl.
  - intros _. now exists x.
  - intros Hlt. apply IH. lia.
Qed.

(** the loop invariant: below [first] the vector holds what is kept of
    the part already visited; from [i] on it is untouched *)
Lemma remove_if_loop_inv pred n : forall v first i,
  (first <= i)%nat -> (i + n = length v)%nat ->
  let r := remove_if_loop pred n v first i in
  take (snd r) (fst r) = take first v ++ kept pred (drop i v)
  /\ length (fst r) = length v.
Proof.
  induction n as [|n IH]; intros v first i Hle Hlen; simpl.
  - rewrite drop_ge by lia. unfold kept. simpl. now rewrite app_nil_r.
  - destruct (v !! i) as [x|] eqn:Hx.
    2:{ apply lookup_ge_None in Hx. lia. }
    rewrite (drop_S _ _ _ Hx).
    destruct (pred x) eqn:E.
    + destruct (IH v first (S i)) as [IH1 IH2]; [lia|lia|].
      split; [|exact IH2].
      rewrite IH1. unfold kept. simpl. now rewrite E.
    + assert (Hf : (first < length v)%nat) by lia.
      destruct (IH (<[first:=x]> v) (S first) (S i)) as [IH1 IH2];
        [lia|rewrite length_insert; lia|].
      split; [|rewrite IH2; apply length_insert].
      rewrite IH1.
      rewrite drop_insert_lt by lia.
      rewrite (take_S_r _ _ x) by (now apply list_lookup_insert_eq).
      rewrite take_insert_ge by lia.
      unfold kept. simpl. rewrite E. simpl.
      now rewrite <- app_assoc.
Qed.

Lemma remove_if_spec pred v :
  take (snd (remove_if pred v)) (fst (remove_if pred v)) = kept pred v
  /\ length (fst (remove_if pred v)) = length v.
Proof.
  unfold remove_if.
  destruct (Nat.ltb_spec (find_if pred v) (length v)) as [Hlt|Hge].
  - destruct (remove_if_loop_inv pred (length v - S (find_if pred v)) v
                (find_if pred v) (S (find_if pred v))) as [H1 H2]; [lia|lia|].
    split; [|exact H2].
    rewrite H1.
    destruct (find_if_hit pred v Hlt) as (x & Hx & Hp).
    transitivity (kept pred (take (find_if pred v) v ++ drop (find_if pred v) v));
      [|now rewrite take_drop].
    rewrite kept_app, find_if_prefix, (drop_S _ _ _ Hx).
    unfold kept. simpl. now rewrite Hp.
  - simpl. split; [|reflexivity].
    pose proof (find_if_le pred v) as Hle.
    assert (Heq : find_if pred v = length v) by lia.
    pose proof (find_if_prefix pred v) as Hp.
    rewrite Heq, firstn_all in Hp. rewrite Heq, firstn_all. now symmetry.
Qed.

Lemma erase_remove_if_kept pred v : erase_remove_if pred v = kept pred v.
Proof.
  unfold erase_remove_if, erase.
  destruct (remove_if_spec pred v) as [H1 H2].
  destruct (remove_if pred v) as [v' new_end]. simpl in *.
  rewrite drop_ge by lia. now rewrite app_nil_r.
Qed.
End VectorFacts.

(** ** Running a task: unfolding the monad *)

Ltac run :=
  unfold bind, ret, observe, query, call, die, syntax_error in *; simpl in *.

Section MonadFacts.
Context {World : Type} `{Device World}.

(** a loop of commands logs one event per element, in order, and never
    fails *)
Lemma for_each_call {A} (ev : A -> Event) (l : list A) : forall s : State,
  exists s', for_each (fun x => call (ev x)) l s = Done tt s'
             /\ trace s' = trace s ++ map ev l.
Proof.
  induction l as [|x l IH]; intros s; simpl.
  - exists s. run. now rewrite app_nil_r.
  - run. destruct (IH (act (ev x) s)) as (s' & Hrun & Htr).
    exists s'. split; [exact Hrun|].
    rewrite Htr. simpl. now rewrite <- app_assoc.
Qed.
End MonadFacts.

(** ** FlashSuperLayoutTask::Initialize *)

Section InitializeFacts.
Context {World Helper : Type} `{Device World} `{SuperFlashHelper World Helper}.
Import FlashSuperLayoutTask.

(** [Initialize] always returns, only asks the device, and either gives up
    with the list as it was or hands out a task with the covered entries
    erased *)
Lemma Initialize_cases fp os_images (s : State) :
  exists s', world s' = world s /\
    (Initialize fp os_images s = Done (None, os_images) s'
     \/ exists task,
          Initialize fp os_images s
          = Done (Some task, kept (covered fp task) os_images) s').
Proof.
  assert (Hstop : forall s1 : State, world s1 = world s ->
            exists s', world s' = world s /\
              (Done (@None (t Helper), os_images) s1 = Done (None, os_images) s'
               \/ exists task : t Helper,
                    Done (@None (t Helper), os_images) s1
                    = Done (Some task, kept (covered fp task) os_images) s')).
  { intros s1 Hw. exists s1. split; [exact Hw|now left]. }
  unfold Initialize. run.
  destruct (supports_AB (world s)); simpl; [|now apply Hstop].
  destruct (String.eqb (slot fp) "all"); [now apply Hstop|].
  destruct (OpenFile (world s) "super_empty.img" <? 0)%Z; [now apply Hstop|].
  destruct (getvar (world s) _) as [size|]; [|now apply Hstop].
  destruct (Open _ _) as [[|] helper]; [|now apply Hstop].
  destruct (add_partitions fp helper os_images) as [helper'|]; [|now apply Hstop].
  destruct (GetSparseLayout helper') as [[layout|] helper'']; [|now apply Hstop].
  eexists. split; [|right].
  2:{ exists {| super_name_ := default "super" (getvar (world s) "super-partition-name");
                helper_ := helper''; sparse_layout_ := layout |}.
      rewrite erase_remove_if_kept. reflexivity. }
  reflexivity.
Qed.
End InitializeFacts.

Section InitializeClaims.
Context {World Helper : Type} `{Device World} `{SuperFlashHelper World Helper}.
Import FlashSuperLayoutTask.

Lemma filter_sublist {A} (f : A -> bool) (l : list A) :
  sublist (List.filter f l) l.
Proof.
  induction l as [|x l IH]; simpl; [constructor|].
  destruct (f x); now constructor.
Qed.

(** C1: when [Initialize] hands out a task, the caller's list is left with
    exactly the entries whose partition name (resolved against the current
    slot) the task's helper does not report through [WillFlash], in their
    original order. *)
Theorem Initialize_erases_covered_images
    fp os_images (s : State) (task : t Helper) rest s' :
  Initialize fp os_images s = Done (Some task, rest) s' ->
  let covered entry :=
    WillFlash (helper_ task) (GetPartitionName entry (current_slot fp)) in
  rest = List.filter (fun entry => negb (covered entry)) os_images
  /\ (forall entry,
        In entry rest <-> (In entry os_images /\ covered entry = false))
  /\ sublist rest os_images.
Proof.
  intros Hrun covered.
  assert (Hrest : rest = kept covered os_images).
  { destruct (Initialize_cases fp os_images s) as (s1 & _ & [Hn | (task' & Hs)]).
    - rewrite Hn in Hrun. discriminate.
    - rewrite Hs in Hrun. injection Hrun as Ht Hr _. subst task'.
      now symmetry. }
  unfold kept in Hrest. subst rest.
  split; [reflexivity|split].
  - intros entry. rewrite List.filter_In, negb_true_iff. reflexivity.
  - apply filter_sublist.
Qed.

(** C3: on a device without A/B support, for the slot "all", without the
    empty-layout template on the host, or when the device does not report
    the size of the super partition, [Initialize] returns no task and
    leaves the list as it was; it has not changed the device either. *)
Theorem Initialize_ineligible fp os_images (s : State) :
  supports_AB (world s) = false
  \/ slot fp = "all"
  \/ (OpenFile (world s) "super_empty.img" < 0)%Z
  \/ getvar (world s)
       ("partition-size:"
        +:+ default "super" (getvar (world s) "super-partition-name")) = None ->
  exists s',
    Initialize fp os_images s = Done (None, os_images) s'
    /\ world s' = world s.
Proof.
  intros Hwhy. unfold Initialize. run.
  destruct (supports_AB (world s)) eqn:Hab; simpl; [|eauto].
  destruct (String.eqb_spec (slot fp) "all") as [Hall|Hall]; [eauto|].
  destruct (Z.ltb_spec (OpenFile (world s) "super_empty.img") 0) as [Hfd|Hfd];
    [eauto|].
  destruct Hwhy as [Hno | [Hno | [Hno | Hno]]];
    [discriminate | contradiction | lia |].
  destruct (getvar (world s) "super-partition-name"); simpl in Hno;
    rewrite Hno; eauto.
Qed.

(** C9: whenever [Initialize] returns no task, whatever made it give up,
    the list it returns to the caller is the list it was given. *)
Theorem Initialize_no_task_keeps_images
    fp os_images (s : State) rest s' :
  Initialize fp os_images s = Done (@None (t Helper), rest) s' ->
  rest = os_images.
Proof.
  intros Hrun.
  destruct (Initialize_cases fp os_images s) as (s1 & _ & [Hn | (task & Hs)]).
  - rewrite Hn in Hrun. now injection Hrun as <- _.
  - rewrite Hs in Hrun. discriminate.
Qed.

(** the helper can make [Initialize] give up too: its [Open], any single
    [AddPartition], or [GetSparseLayout] *)
Lemma Initialize_helper_gives_up fp os_images (s : State) size :
  supports_AB (world s) = true ->
  String.eqb (slot fp) "all" = false ->
  (OpenFile (world s) "super_empty.img" <? 0)%Z = false ->
  getvar (world s)
    ("partition-size:"
     +:+ default "super" (getvar (world s) "super-partition-name")) = Some size ->
  let opened := Open (make_helper (world s)) (OpenFile (world s) "super_empty.img") in
  (fst opened = false
   \/ add_partitions fp (snd opened) os_images = None
   \/ exists helper,
        add_partitions fp (snd opened) os_images = Some helper
        /\ fst (GetSparseLayout helper) = None) ->
  exists s', Initialize fp os_images s = Done (None, os_images) s'.
Proof.
  intros Hab Hslot Hfd Hsize opened Hwhy. unfold Initialize. run.
  rewrite Hab. simpl. rewrite Hslot, Hfd.
  destruct (getvar (world s) "super-partition-name"); simpl in Hsize;
    rewrite Hsize; subst opened;
    (destruct (Open _ _) as [[|] helper]; simpl in Hwhy; [|eauto]);
    (destruct Hwhy as [Hno | [Hno | (helper' & Hadd & Hno)]];
     [discriminate | rewrite Hno; eauto |]);
    rewrite Hadd; destruct (GetSparseLayout helper') as [[layout|] h'];
    simpl in Hno; [discriminate | eauto | discriminate | eauto].
Qed.
End InitializeClaims.

(** ** FlashSuperLayoutTask::Run *)

Section ChunkFacts.

(** with a positive chunk size the fuel [length s] is enough: the chunks,
    concatenated in order, are the image *)
Lemma split_chunks_concat fuel max_size : forall s,
  (0 < max_size)%nat -> (length s <= fuel)%nat ->
  concat (split_chunks fuel max_size s) = s.
Proof.
  induction fuel as [|fuel IH]; intros s Hpos Hlen; simpl.
  - destruct s; [reflexivity|simpl in Hlen; lia].
  - destruct s as [|b s]; [reflexivity|].
    cbn [concat]. rewrite IH; [apply take_drop|exact Hpos|].
    rewrite length_drop. simpl in *. lia.
Qed.

Lemma split_chunks_nonempty fuel max_size : forall s,
  Forall (fun c => c <> []) (split_chunks fuel (S max_size) s).
Proof.
  induction fuel as [|fuel IH]; intros s; simpl; [constructor|].
  destruct s as [|b s]; [constructor|].
  constructor; [discriminate|apply IH].
Qed.

Lemma to_int_id z : (- 2 ^ 31 <= z < 2 ^ 31)%Z -> to_int z = z.
Proof.
  intros Hz. unfold to_int.
  rewrite Z.mod_small; lia.
Qed.
End ChunkFacts.

Section RunClaims.
Context {World Helper : Type} `{Device World} `{SuperFlashHelper World Helper}.
Import FlashSuperLayoutTask.

End RunClaims.

Section RunLimits.
Context {World Helper : Type} `{Device World} `{SuperFlashHelper World Helper}.
Import FlashSuperLayoutTask.

End RunLimits.



(** ** FlashTask::Run *)

Section FlashFacts.
Context {World : Type} `{Device World}.
Import FlashTask.

(** what the lambda [flash] does with one resolved partition: nothing but
    the partition and the device mode decides between [die] and
    [do_flash] *)
Lemma flash_outcome (self : t) partition (s : State) :
  flash self partition s =
  if should_flash_in_userspace (world s) partition
     && negb (is_userspace_fastboot (world s))
  then Fatal Die remediation s
  else Done tt (act (do_flash partition (fname_ self) (apply_vbmeta_ self)) s).
Proof.
  unfold flash. run.
  now destruct (should_flash_in_userspace _ _), (is_userspace_fastboot _).
Qed.

(** no field of the task can lift the refusal *)
Lemma flash_refusal_is_unconditional (self : t) partition (s : State) :
  should_flash_in_userspace (world s) partition = true ->
  is_userspace_fastboot (world s) = false ->
  flash self partition s = Fatal Die remediation s.
Proof. intros Hd Hu. rewrite flash_outcome, Hd, Hu. reflexivity. Qed.
End FlashFacts.

(** C2: flashing the dynamic partition [system] on a phone that sits in the
    bootloader: the task dies with the remediation text (the one that points
    at --force) and no flash command goes out; the task has no field through
    which the caller could ask for the override. *)
Theorem FlashTask_Run_dies_on_dynamic_in_bootloader :
  FlashTask.Run (FlashTask.FlashTask EmptyString "system" "system.img" false)
                (Bench.start Bench.phone)
  = Fatal Die FlashTask.remediation (Bench.start Bench.phone).
Proof. reflexivity. Qed.

(** ** RebootTask::Run *)

Section RebootFacts.
Context {World : Type} `{Device World}.
Import RebootTask.

(** C5: the dispatch on the reboot target.  "bootloader" and "recovery"
    send one [RebootTo] with that target and then wait once for the
    disconnect; the empty target sends one [Reboot] and waits; "userspace"
    and "fastboot" reboot into userspace fastboot and wait only when the
    device is not there already; every other target ends the process with
    the syntax error, nothing sent. *)
Theorem RebootTask_Run_dispatch (fp : FlashingPlan) (s : State) :
  let run target := Run {| reboot_target_ := target; fp_ := fp |} s in
  run "bootloader" = Done tt (act WaitForDisconnect (act (RebootTo "bootloader") s))
  /\ run "recovery" = Done tt (act WaitForDisconnect (act (RebootTo "recovery") s))
  /\ run EmptyString = Done tt (act WaitForDisconnect (act Reboot s))
  /\ (forall target, target = "userspace" \/ target = "fastboot" ->
        run target =
        if is_userspace_fastboot (world s) then Done tt s
        else Done tt (act WaitForDisconnect (act reboot_to_userspace_fastboot s)))
  /\ (forall target,
        ~ In target ["userspace"; "fastboot"; "recovery"; "bootloader"; EmptyString] ->
        run target = Fatal SyntaxError ("unknown reboot target " +:+ target) s).
Proof.
  intros run. unfold run, Run. simpl.
  repeat split.
  - intros target [-> | ->]; simpl; run;
      now destruct (is_userspace_fastboot (world s)).
  - intros target Hother.
    assert (Hne : forall known,
              In known ["userspace"; "fastboot"; "recovery"; "bootloader"; EmptyString] ->
              String.eqb target known = false).
    { intros known Hin. apply String.eqb_neq. now intros ->. }
    rewrite !Hne by (simpl; auto 10). reflexivity.
Qed.

(** C10: asked for "userspace" or "fastboot" on a device that already runs
    userspace fastboot, the task returns with the state as it found it:
    nothing logged, the device untouched. *)
Theorem RebootTask_Run_already_in_userspace (self : t) (s : State) :
  reboot_target_ self = "userspace" \/ reboot_target_ self = "fastboot" ->
  is_userspace_fastboot (world s) = true ->
  Run self s = Done tt s.
Proof.
  intros Htarget Hmode. unfold Run. run.
  destruct Htarget as [-> | ->]; simpl; now rewrite Hmode.
Qed.
End RebootFacts.

(** ** WipeTask::Run *)

Section WipeFacts.
Context {World : Type} `{Device World}.
Import WipeTask.

(** C6: when the partition-type query fails or answers with the empty
    string, the task returns having only asked: no erase, no format, no
    fatal exit, the device untouched.  With a type in hand it erases the
    partition and then formats it with that type and the plan's options. *)
Theorem WipeTask_Run_outcome (self : t) (s : State) :
  let key := "partition-type:" +:+ pname_ self in
  let asked := log (GetVar key) s in
  (getvar (world s) key = None \/ getvar (world s) key = Some EmptyString ->
     Run self s = Done tt asked)
  /\ (forall partition_type,
        getvar (world s) key = Some partition_type ->
        partition_type <> EmptyString ->
        Run self s =
        Done tt (act (fb_perform_format (pname_ self) 1 partition_type
                        EmptyString (fs_options (fp_ self)))
                     (act (Erase (pname_ self)) asked))).
Proof.
  intros key asked. unfold Run. run. fold key. split.
  - intros [-> | ->]; reflexivity.
  - intros partition_type -> Hne.
    destruct (String.eqb_spec partition_type EmptyString); [contradiction|].
    reflexivity.
Qed.
End WipeFacts.

(** ** UpdateSuperTask::Run *)

Section UpdateSuperFacts.
Context {World : Type} `{Device World}.
Import UpdateSuperTask.

(** C7: without the empty-layout template on the host the task returns at
    once and leaves no trace.  With it, the task first brings the device
    into userspace fastboot unless it is there already, asks for the name
    of the super partition (taking "super" when the query fails),
    downloads the template under that name, and sends "update-super:" with
    the name, followed by ":wipe" exactly when the plan wants a wipe. *)
Theorem UpdateSuperTask_Run_outcome (self : t) (s : State) :
  let fd := OpenFile (world s) "super_empty.img" in
  ((fd < 0)%Z -> Run self s = Done tt s)
  /\ ((0 <= fd)%Z ->
      let s1 :=
        if is_userspace_fastboot (world s) then s
        else act reboot_to_userspace_fastboot s in
      let super_name :=
        default "super" (getvar (world s1) "super-partition-name") in
      let s2 := log (GetVar "super-partition-name") s1 in
      let s3 := act (Download super_name fd (get_file_size (world s1) fd)) s2 in
      let command :=
        if wants_wipe (fp_ self)
        then ("update-super:" +:+ super_name) +:+ ":wipe"
        else "update-super:" +:+ super_name in
      Run self s = Done tt (act (RawCommand command "Updating super partition") s3)).
Proof.
  intros fd. unfold Run. run. fold fd. split.
  - intros Hfd. apply Z.ltb_lt in Hfd. now rewrite Hfd.
  - intros Hfd. apply Z.ltb_ge in Hfd. rewrite Hfd.
    destruct (is_userspace_fastboot (world s)); reflexivity.
Qed.
End UpdateSuperFacts.

(** ** ResizeTask::Run *)

Section ResizeFacts.
Context {World : Type} `{Device World}.
Import ResizeTask.

Lemma resize_partition_outcome (self : t) partition (s : State) :
  resize_partition self partition s = Done tt (visit self s partition).
Proof.
  unfold resize_partition, visit. run.
  now destruct (is_logical (world s) partition).
Qed.

Lemma for_each_resize (self : t) (l : list string) : forall s : State,
  for_each (resize_partition self) l s = Done tt (fold_left (visit self) l s).
Proof.
  induction l as [|p l IH]; intros s; simpl; [reflexivity|].
  unfold bind. rewrite resize_partition_outcome. apply IH.
Qed.

Lemma visits_resize_sublist (self : t) (l : list string) : forall s : State,
  exists resized,
    sublist resized l
    /\ trace (fold_left (visit self) l s)
       = trace s ++ map (fun p => ResizePartition p (size_ self)) resized.
Proof.
  induction l as [|p l IH]; intros s; simpl.
  - exists []. split; [constructor|]. simpl. now rewrite app_nil_r.
  - destruct (is_logical (world s) p) eqn:E.
    + assert (Hv : visit self s p = act (ResizePartition p (size_ self)) s)
        by (unfold visit; now rewrite E).
      rewrite Hv. destruct (IH (act (ResizePartition p (size_ self)) s))
        as (resized & Hsub & Htr).
      exists (p :: resized). split; [now constructor|].
      rewrite Htr. simpl. now rewrite <- app_assoc.
    + assert (Hv : visit self s p = s) by (unfold visit; now rewrite E).
      rewrite Hv. destruct (IH s) as (resized & Hsub & Htr).
      exists resized. split; [now constructor|exact Htr].
Qed.

(** C8: each resolved partition gets a [ResizePartition] with the task's
    size when it is logical at its turn, and is passed over otherwise; the
    task never exits fatally, and all it sends are resize commands for
    resolved partitions, in the order of the resolution. *)
Theorem ResizeTask_Run_resizes_logical_only (self : t) (s : State) :
  let resolved := resolve_partitions (world s) (pname_ self) (slot_ self) false in
  (forall partition s0,
      resize_partition self partition s0 =
      Done tt (if is_logical (world s0) partition
               then act (ResizePartition partition (size_ self)) s0
               else s0))
  /\ Run self s = Done tt (fold_left (visit self) resolved s)
  /\ exists resized,
       sublist resized resolved
       /\ trace (fold_left (visit self) resolved s)
          = trace s ++ map (fun p => ResizePartition p (size_ self)) resized.
Proof.
  intros resolved. split; [|split].
  - apply resize_partition_outcome.
  - unfold Run, do_for_partitions. run. apply for_each_resize.
  - apply visits_resize_sublist.
Qed.

(** on a device where a command does not change which partitions are
    logical, the resized partitions are the logical ones among the
    resolved *)
Lemma visits_resize_logical (self : t) (l : list string) :
  (forall e w p, is_logical (effect e w) p = is_logical w p) ->
  forall s : State,
    trace (fold_left (visit self) l s)
    = trace s ++ map (fun p => ResizePartition p (size_ self))
                     (List.filter (is_logical (world s)) l).
Proof.
  intros Hstable. induction l as [|p l IH]; intros s; simpl.
  - now rewrite app_nil_r.
  - rewrite IH. unfold visit.
    destruct (is_logical (world s) p) eqn:E; simpl.
    + rewrite <- app_assoc. simpl. do 3 f_equal.
      apply List.filter_ext. intros q. apply Hstable.
    + reflexivity.
Qed.
End ResizeFacts.

(** ** The theorems at work on the bench phone *)

Section OnTheBench.
Import Bench.

Lemma Initialize_erases_covered_images_witness :
  FlashSuperLayoutTask.Initialize (plan "a") os_images (start phone)
  = Done (Some super_task, [image "boot"; image "vbmeta"])
         (log (GetVar "partition-size:super")
              (log (GetVar "super-partition-name") (start phone)))
  /\ [image "boot"; image "vbmeta"]
     = List.filter
         (fun entry =>
            negb (WillFlash (FlashSuperLayoutTask.helper_ super_task)
                            (GetPartitionName entry (current_slot (plan "a")))))
         os_images.
Proof.
  assert (Hrun :
    FlashSuperLayoutTask.Initialize (plan "a") os_images (start phone)
    = Done (Some super_task, [image "boot"; image "vbmeta"])
           (log (GetVar "partition-size:super")
                (log (GetVar "super-partition-name") (start phone))))
    by reflexivity.
  split; [exact Hrun|].
  exact (proj1 (Initialize_erases_covered_images _ _ _ _ _ _ Hrun)).
Defined.

Lemma Initialize_ineligible_witness :
  slot (plan "all") = "all"
  /\ exists s',
       FlashSuperLayoutTask.Initialize (Helper := helper)
         (plan "all") os_images (start phone)
       = Done (None, os_images) s'
       /\ world s' = world (start phone).
Proof.
  split; [reflexivity|].
  apply (Initialize_ineligible (plan "all") os_images (start phone)).
  right. left. reflexivity.
Defined.

Lemma Initialize_no_task_keeps_images_witness :
  FlashSuperLayoutTask.Initialize (Helper := helper)
    (plan "all") os_images (start phone)
  = Done (None, os_images) (start phone)
  /\ os_images = os_images.
Proof.
  split; [reflexivity|].
  apply (Initialize_no_task_keeps_images (Helper := helper)
           (plan "all") os_images (start phone) os_images (start phone)).
  reflexivity.
Defined.


Lemma RebootTask_Run_dispatch_witness :
  RebootTask.Run {| RebootTask.reboot_target_ := "edl";
                    RebootTask.fp_ := plan "a" |} (start phone)
  = Fatal SyntaxError "unknown reboot target edl" (start phone)
  /\ RebootTask.Run {| RebootTask.reboot_target_ := "fastboot";
                       RebootTask.fp_ := plan "a" |} (start phone)
     = Done tt (act WaitForDisconnect
                   (act reboot_to_userspace_fastboot (start phone))).
Proof.
  destruct (RebootTask_Run_dispatch (plan "a") (start phone))
    as (_ & _ & _ & Huser & Hother).
  split.
  - apply (Hother "edl"). simpl. intuition discriminate.
  - apply (Huser "fastboot"). right. reflexivity.
Defined.

Lemma RebootTask_Run_already_in_userspace_witness :
  RebootTask.Run {| RebootTask.reboot_target_ := "fastboot";
                    RebootTask.fp_ := plan "a" |} (start fastbootd)
  = Done tt (start fastbootd).
Proof.
  apply RebootTask_Run_already_in_userspace.
  - right. reflexivity.
  - reflexivity.
Defined.

Lemma WipeTask_Run_outcome_witness :
  WipeTask.Run {| WipeTask.fp_ := plan "a"; WipeTask.pname_ := "cache" |}
               (start phone)
  = Done tt (log (GetVar "partition-type:cache") (start phone))
  /\ WipeTask.Run {| WipeTask.fp_ := plan "a"; WipeTask.pname_ := "userdata" |}
                  (start phone)
     = Done tt (act (fb_perform_format "userdata" 1 "ext4" EmptyString 0)
                   (act (Erase "userdata")
                      (log (GetVar "partition-type:userdata") (start phone)))).
Proof.
  split.
  - apply (proj1 (WipeTask_Run_outcome
                    {| WipeTask.fp_ := plan "a"; WipeTask.pname_ := "cache" |}
                    (start phone))).
    right. reflexivity.
  - apply (proj2 (WipeTask_Run_outcome
                    {| WipeTask.fp_ := plan "a"; WipeTask.pname_ := "userdata" |}
                    (start phone)) "ext4").
    + reflexivity.
    + discriminate.
Defined.

Lemma UpdateSuperTask_Run_outcome_witness :
  (0 <= OpenFile (world (start phone)) "super_empty.img")%Z
  /\ UpdateSuperTask.Run {| UpdateSuperTask.fp_ := plan "a" |} (start phone)
     = Done tt {| world := fastbootd;
                  trace := [reboot_to_userspace_fastboot;
                            GetVar "super-partition-name";
                            Download "super" 3 4096;
                            RawCommand "update-super:super:wipe"
                                       "Updating super partition"] |}.
Proof.
  assert (Hfd : (0 <= OpenFile (world (start phone)) "super_empty.img")%Z)
    by (simpl; lia).
  split; [exact Hfd|].
  exact (proj2 (UpdateSuperTask_Run_outcome
                  {| UpdateSuperTask.fp_ := plan "a" |} (start phone)) Hfd).
Defined.
End OnTheBench.

(** * Further properties of the tasks *)

(** ** More on FlashSuperLayoutTask::Initialize *)

Section InitializeMore.
Context {World Helper : Type} `{Device World} `{SuperFlashHelper World Helper}.
Import FlashSuperLayoutTask.

(** what a successful [Initialize] has been through, read off its body *)
Lemma Initialize_success_inv fp os_images (s : State) (task : t Helper) rest s' :
  Initialize fp os_images s = Done (Some task, rest) s' ->
  let fd := OpenFile (world s) "super_empty.img" in
  let super_name := default "super" (getvar (world s) "super-partition-name") in
  supports_AB (world s) = true
  /\ slot fp <> "all"
  /\ (0 <= fd)%Z
  /\ is_Some (getvar (world s) ("partition-size:" +:+ super_name))
  /\ super_name_ task = super_name
  /\ (exists opened registered,
        Open (make_helper (world s)) fd = (true, opened)
        /\ add_partitions fp opened os_images = Some registered
        /\ GetSparseLayout registered = (Some (sparse_layout_ task), helper_ task))
  /\ rest = kept (covered fp task) os_images
  /\ s' = log (GetVar ("partition-size:" +:+ super_name))
              (log (GetVar "super-partition-name") s).
Proof.
  intros Hrun fd super_name. revert Hrun. unfold Initialize. run.
  destruct (supports_AB (world s)); simpl; [|discriminate].
  destruct (String.eqb_spec (slot fp) "all") as [|Hslot]; [discriminate|].
  fold fd. destruct (Z.ltb_spec fd 0) as [|Hfd]; [discriminate|].
  change (match getvar (world s) "super-partition-name" with
          | Some v => v
          | None => "super"
          end) with super_name.
  destruct (getvar (world s) ("partition-size:" +:+ super_name)) as [size|] eqn:Hsize;
    [|discriminate].
  simpl.
  destruct (Open (make_helper (world s)) fd) as [[|] opened] eqn:Hopen;
    simpl; [|discriminate].
  destruct (add_partitions fp opened os_images) as [registered|] eqn:Hadd;
    simpl; [|discriminate].
  destruct (GetSparseLayout registered) as [[layout|] final] eqn:Hlayout;
    simpl; [|discriminate].
  intros Hdone. injection Hdone as <- <- <-. simpl.
  repeat split; try assumption; try reflexivity.
  - now exists size.
  - exists opened, registered. now rewrite Hlayout.
  - apply erase_remove_if_kept.
Qed.

(** the registration loop runs through a concatenation in sequence, and a
    failure in the first part ends it *)
Lemma add_partitions_app fp (l1 l2 : list ImageEntry) : forall helper : Helper,
  add_partitions fp helper (l1 ++ l2) =
  match add_partitions fp helper l1 with
  | Some helper' => add_partitions fp helper' l2
  | None => None
  end.
Proof.
  induction l1 as [|entry l1 IH]; intros helper; simpl; [reflexivity|].
  destruct (AddPartition helper _ _ _) as [[|] helper']; [apply IH|reflexivity].
Qed.

Lemma kept_idempotent {A} (pred : A -> bool) (v : list A) :
  kept pred (kept pred v) = kept pred v.
Proof.
  unfold kept. induction v as [|x v IH]; simpl; [reflexivity|].
  destruct (pred x) eqn:E; simpl; [exact IH|].
  rewrite E. simpl. now rewrite IH.
Qed.

Lemma kept_all_iff {A} (pred : A -> bool) (v : list A) :
  kept pred v = v <-> (forall x, In x v -> pred x = false).
Proof.
  unfold kept. induction v as [|x v IH]; simpl.
  - split; [intros _ x []|reflexivity].
  - destruct (pred x) eqn:E; simpl.
    + split.
      * intros Heq. exfalso.
        assert (Hlen : (length (List.filter (fun y => negb (pred y)) v) <= length v)%nat)
          by apply List.filter_length_le.
        rewrite Heq in Hlen. simpl in Hlen. lia.
      * intros Hall. specialize (Hall x (or_introl eq_refl)). congruence.
    + split.
      * intros Heq. injection Heq as Heq. intros y [<-|Hy]; [exact E|].
        now apply IH.
      * intros Hall. f_equal. apply IH. intros y Hy. apply Hall. now right.
Qed.
End InitializeMore.

Section InitializeExtras.
Context {World Helper : Type} `{Device World} `{SuperFlashHelper World Helper}.
Import FlashSuperLayoutTask.

(** X1: [Initialize] always returns, sends no command (the device is as it was)
    and logs either nothing or the two queries, the name of the super
    partition and then the size of the partition so named. *)
Theorem Initialize_only_asks fp os_images (s : State) :
  exists r s',
    Initialize fp os_images s = Done r s'
    /\ world s' = world s
    /\ (trace s' = trace s
        \/ trace s' =
           trace s ++
           [GetVar "super-partition-name";
            GetVar ("partition-size:"
                    +:+ default "super" (getvar (world s) "super-partition-name"))]).
Proof.
  assert (Hasked : forall r,
    let s2 := log (GetVar ("partition-size:"
                           +:+ default "super" (getvar (world s) "super-partition-name")))
                  (log (GetVar "super-partition-name") s) in
    exists (r0 : option (t Helper) * list ImageEntry) s',
      Done r s2 = Done r0 s' /\ world s' = world s
      /\ (trace s' = trace s
          \/ trace s' =
             trace s ++
             [GetVar "super-partition-name";
              GetVar ("partition-size:"
                      +:+ default "super" (getvar (world s) "super-partition-name"))])).
  { intros r s2. exists r, s2. split; [reflexivity|]. split; [reflexivity|].
    right. simpl. now rewrite <- app_assoc. }
  unfold Initialize. run.
  destruct (supports_AB (world s)); simpl; [|eauto 6].
  destruct (String.eqb (slot fp) "all"); [eauto 6|].
  destruct (OpenFile (world s) "super_empty.img" <? 0)%Z; [eauto 6|].
  change (match getvar (world s) "super-partition-name" with
          | Some v => v
          | None => "super"
          end) with (default "super" (getvar (world s) "super-partition-name")).
  destruct (getvar (world s)
              ("partition-size:"
               +:+ default "super" (getvar (world s) "super-partition-name")))
    as [size|]; [|apply Hasked].
  simpl. destruct (Open _ _) as [[|] helper]; [|apply Hasked].
  destruct (add_partitions fp helper os_images) as [helper'|]; [|apply Hasked].
  destruct (GetSparseLayout helper') as [[layout|] helper'']; apply Hasked.
Qed.

(** X2: A task comes back only from an eligible start: the device supports A/B,
    the slot is not "all", the template opened, and the device reported the
    size of the super partition.  The task is addressed to the name the
    device gave for the super partition, or to "super" when it gave none,
    and its layout is the one the helper computed after the template was
    opened and every entry of the list was registered, in order. *)
Theorem Initialize_task_provenance
    fp os_images (s : State) (task : t Helper) rest s' :
  Initialize fp os_images s = Done (Some task, rest) s' ->
  let fd := OpenFile (world s) "super_empty.img" in
  let super_name := default "super" (getvar (world s) "super-partition-name") in
  supports_AB (world s) = true
  /\ slot fp <> "all"
  /\ (0 <= fd)%Z
  /\ is_Some (getvar (world s) ("partition-size:" +:+ super_name))
  /\ super_name_ task = super_name
  /\ exists opened registered,
       Open (make_helper (world s)) fd = (true, opened)
       /\ add_partitions fp opened os_images = Some registered
       /\ GetSparseLayout registered = (Some (sparse_layout_ task), helper_ task).
Proof.
  intros Hrun fd super_name.
  destruct (Initialize_success_inv _ _ _ _ _ _ Hrun)
    as (Hab & Hslot & Hfd & Hsize & Hname & Hhelper & _).
  repeat split; assumption.
Qed.

(** X3: Registration stops at the first entry the helper turns down: once a
    prefix of the list fails, the whole list fails, whatever follows. *)
Theorem add_partitions_fails_on_prefix fp (helper : Helper) (l1 l2 : list ImageEntry) :
  add_partitions fp helper l1 = None ->
  add_partitions fp helper (l1 ++ l2) = None.
Proof. intros Hfail. now rewrite add_partitions_app, Hfail. Qed.

(** X4: What a successful [Initialize] leaves in the list is stable: no entry
    left is covered by the task's helper, so the same erase pass run again
    on the remainder removes nothing. *)
Theorem Initialize_residue_is_stable
    fp os_images (s : State) (task : t Helper) rest s' :
  Initialize fp os_images s = Done (Some task, rest) s' ->
  erase_remove_if (covered fp task) rest = rest
  /\ forall entry, In entry rest -> covered fp task entry = false.
Proof.
  intros Hrun.
  destruct (Initialize_success_inv _ _ _ _ _ _ Hrun) as (_ & _ & _ & _ & _ & _ & Hrest & _).
  assert (Hstable : kept (covered fp task) rest = rest)
    by (rewrite Hrest; apply kept_idempotent).
  split.
  - now rewrite erase_remove_if_kept.
  - now apply kept_all_iff.
Qed.

(** X5: A successful [Initialize] hands the list back unchanged exactly when the
    task's helper covers none of its entries, and never hands back a longer
    list. *)
Theorem Initialize_keeps_all_iff_none_covered
    fp os_images (s : State) (task : t Helper) rest s' :
  Initialize fp os_images s = Done (Some task, rest) s' ->
  (rest = os_images <->
   forall entry, In entry os_images -> covered fp task entry = false)
  /\ (length rest <= length os_images)%nat.
Proof.
  intros Hrun.
  destruct (Initialize_success_inv _ _ _ _ _ _ Hrun) as (_ & _ & _ & _ & _ & _ & Hrest & _).
  subst rest. split; [apply kept_all_iff|].
  unfold kept. apply List.filter_length_le.
Qed.
End InitializeExtras.

(** ** Loops over the resolved partitions *)

Section LoopFacts.
Context {World : Type} `{Device World}.

Lemma for_each_app {A} (f : A -> M (World := World) unit) (l1 l2 : list A) :
  forall s : State,
  for_each f (l1 ++ l2) s = bind (for_each f l1) (fun _ => for_each f l2) s.
Proof.
  induction l1 as [|x l1 IH]; intros s; simpl; [reflexivity|].
  unfold bind in *. destruct (f x s) as [[] s1|e msg s1]; [apply IH|reflexivity].
Qed.

(** as long as no partition is refused, the loop of [FlashTask::Run] flashes
    one after the other *)
Lemma for_each_flash_pass (self : FlashTask.t) :
  (forall p f v w q,
      flash_refused (effect (do_flash p f v) w) q = flash_refused w q) ->
  forall (l : list string) (s : State),
    (forall q, In q l -> flash_refused (world s) q = false) ->
    exists s',
      for_each (FlashTask.flash self) l s = Done tt s'
      /\ trace s' = trace s ++
           map (fun p => do_flash p (FlashTask.fname_ self) (FlashTask.apply_vbmeta_ self)) l
      /\ forall q, flash_refused (world s') q = flash_refused (world s) q.
Proof.
  intros Hstable l. induction l as [|p l IH]; intros s Hpass; simpl.
  - exists s. unfold ret. rewrite app_nil_r. auto.
  - unfold bind. rewrite flash_outcome.
    fold (flash_refused (world s) p). rewrite (Hpass p) by now left.
    set (s1 := act (do_flash p (FlashTask.fname_ self) (FlashTask.apply_vbmeta_ self)) s).
    assert (Hsame : forall q, flash_refused (world s1) q = flash_refused (world s) q)
      by (intros q; apply Hstable).
    destruct (IH s1) as (s' & Hrun & Htr & Hw).
    { intros q Hq. rewrite Hsame. apply Hpass. now right. }
    exists s'. split; [exact Hrun|]. split.
    + rewrite Htr. simpl. now rewrite <- app_assoc.
    + intros q. now rewrite Hw, Hsame.
Qed.

(** a fatal exit of that loop is the refusal of [flash], nothing else *)
Lemma for_each_flash_fatal (self : FlashTask.t) (l : list string) :
  forall (s : State) e msg s',
    for_each (FlashTask.flash self) l s = Fatal e msg s' ->
    e = Die /\ msg = FlashTask.remediation.
Proof.
  induction l as [|p l IH]; intros s e msg s'; simpl; [discriminate|].
  unfold bind. rewrite flash_outcome.
  destruct (should_flash_in_userspace (world s) p && negb (is_userspace_fastboot (world s))).
  - intros Hf. injection Hf as <- <- _. auto.
  - apply IH.
Qed.

Lemma fold_visit_skips (self : ResizeTask.t) (l : list string) (s : State) :
  (forall p, In p l -> is_logical (world s) p = false) ->
  fold_left (ResizeTask.visit self) l s = s.
Proof.
  induction l as [|p l IH]; intros Hnone; simpl; [reflexivity|].
  unfold ResizeTask.visit at 2. rewrite (Hnone p) by now left.
  apply IH. intros q Hq. apply Hnone. now right.
Qed.

Lemma fold_visit_logical (self : ResizeTask.t) (l : list string) :
  (forall p size w q,
      is_logical (effect (ResizePartition p size) w) q = is_logical w q) ->
  forall s : State,
    trace (fold_left (ResizeTask.visit self) l s)
    = trace s ++ map (fun p => ResizePartition p (ResizeTask.size_ self))
                     (List.filter (is_logical (world s)) l).
Proof.
  intros Hstable. induction l as [|p l IH]; intros s; simpl.
  - now rewrite app_nil_r.
  - rewrite IH. unfold ResizeTask.visit.
    destruct (is_logical (world s) p) eqn:E; simpl.
    + rewrite <- app_assoc. simpl. do 3 f_equal.
      apply List.filter_ext. intros q. apply Hstable.
    + reflexivity.
Qed.
End LoopFacts.

Section LoopExtras.
Context {World : Type} `{Device World}.

(** X7: On a device where flashing does not change which partitions are refused,
    a [FlashTask] none of whose resolved partitions is refused flashes each
    of them once, in the order of the resolution, with the task's file and
    vbmeta flag, and returns. *)
Theorem FlashTask_Run_flashes_all (self : FlashTask.t) (s : State) :
  (forall p f v w q,
      flash_refused (effect (do_flash p f v) w) q = flash_refused w q) ->
  let resolved :=
    resolve_partitions (world s) (FlashTask.pname_ self) (FlashTask.slot_ self) true in
  (forall q, In q resolved -> flash_refused (world s) q = false) ->
  exists s',
    FlashTask.Run self s = Done tt s'
    /\ trace s' = trace s ++
         map (fun p => do_flash p (FlashTask.fname_ self) (FlashTask.apply_vbmeta_ self))
             resolved.
Proof.
  intros Hstable resolved Hpass.
  destruct (for_each_flash_pass self Hstable resolved s Hpass) as (s' & Hrun & Htr & _).
  exists s'. split; [|exact Htr].
  unfold FlashTask.Run, do_for_partitions. run. exact Hrun.
Qed.

(** X8: On such a device, when a resolved partition is refused the task dies
    there with the remediation text: the partitions resolved before it have
    been flashed, that one and the ones after it have not. *)
Theorem FlashTask_Run_dies_at_first_refusal
    (self : FlashTask.t) (s : State) (before after : list string) (p : string) :
  (forall p f v w q,
      flash_refused (effect (do_flash p f v) w) q = flash_refused w q) ->
  resolve_partitions (world s) (FlashTask.pname_ self) (FlashTask.slot_ self) true
  = before ++ p :: after ->
  (forall q, In q before -> flash_refused (world s) q = false) ->
  flash_refused (world s) p = true ->
  exists s',
    FlashTask.Run self s = Fatal Die FlashTask.remediation s'
    /\ trace s' = trace s ++
         map (fun q => do_flash q (FlashTask.fname_ self) (FlashTask.apply_vbmeta_ self))
             before.
Proof.
  intros Hstable Hres Hpass Hrefused.
  destruct (for_each_flash_pass self Hstable before s Hpass) as (s' & Hrun & Htr & Hw).
  exists s'. split; [|exact Htr].
  unfold FlashTask.Run, do_for_partitions. run. rewrite Hres, for_each_app.
  unfold bind. rewrite Hrun. simpl. unfold bind. rewrite flash_outcome.
  fold (flash_refused (world s') p). now rewrite Hw, Hrefused.
Qed.

(** X9: A [ResizeTask] none of whose resolved partitions is logical, or that
    resolves to no partition at all, returns with the state as it found it. *)
Theorem ResizeTask_Run_nothing_logical (self : ResizeTask.t) (s : State) :
  (forall p,
      In p (resolve_partitions (world s) (ResizeTask.pname_ self)
                               (ResizeTask.slot_ self) false) ->
      is_logical (world s) p = false) ->
  ResizeTask.Run self s = Done tt s.
Proof.
  intros Hnone. unfold ResizeTask.Run, do_for_partitions. run.
  rewrite for_each_resize. now rewrite fold_visit_skips.
Qed.

(** X10: On a device where resizing does not change which partitions are logical,
    a [ResizeTask] sends one resize, with the task's size, for each resolved
    partition that is logical, in the order of the resolution, and nothing
    else. *)
Theorem ResizeTask_Run_resizes_the_logical (self : ResizeTask.t) (s : State) :
  (forall p size w q,
      is_logical (effect (ResizePartition p size) w) q = is_logical w q) ->
  exists s',
    ResizeTask.Run self s = Done tt s'
    /\ trace s' = trace s ++
         map (fun p => ResizePartition p (ResizeTask.size_ self))
             (List.filter (is_logical (world s))
                (resolve_partitions (world s) (ResizeTask.pname_ self)
                                    (ResizeTask.slot_ self) false)).
Proof.
  intros Hstable. eexists. split.
  - unfold ResizeTask.Run, do_for_partitions. run. apply for_each_resize.
  - now apply fold_visit_logical.
Qed.
End LoopExtras.

(** ** More on RebootTask::Run and on fatal exits *)

Section RebootExtras.
Context {World : Type} `{Device World}.

Lemma Run_userspace_target (self : RebootTask.t) (s : State) :
  RebootTask.reboot_target_ self = "userspace"
  \/ RebootTask.reboot_target_ self = "fastboot" ->
  RebootTask.Run self s =
  if is_userspace_fastboot (world s) then Done tt s
  else Done tt (act WaitForDisconnect (act reboot_to_userspace_fastboot s)).
Proof.
  intros Htarget. unfold RebootTask.Run. run.
  destruct Htarget as [-> | ->]; simpl;
    now destruct (is_userspace_fastboot (world s)).
Qed.

(** X11: Whatever the target, a [RebootTask] that returns has either done nothing
    or sent exactly one reboot command followed by one wait for the
    disconnect; one that exits does so with the syntax error and has sent
    nothing. *)
Theorem RebootTask_Run_reboots_then_waits (self : RebootTask.t) (s : State) :
  match RebootTask.Run self s with
  | Done _ s' =>
      s' = s
      \/ exists cmd, In cmd reboot_commands /\ s' = act WaitForDisconnect (act cmd s)
  | Fatal e msg s' => e = SyntaxError /\ s' = s
  end.
Proof.
  unfold RebootTask.Run, reboot_commands. run.
  destruct (String.eqb _ "userspace" || String.eqb _ "fastboot").
  - destruct (is_userspace_fastboot (world s)); simpl; [now left|].
    right. eexists. split; [|reflexivity]. simpl. auto.
  - destruct (String.eqb _ "recovery").
    { right. eexists. split; [|reflexivity]. simpl. auto. }
    destruct (String.eqb _ "bootloader").
    { right. eexists. split; [|reflexivity]. simpl. auto. }
    destruct (String.eqb _ EmptyString).
    { right. eexists. split; [|reflexivity]. simpl. auto. }
    auto.
Qed.

(** X12: On a device that comes up in userspace fastboot when told to, a reboot
    to "userspace" or "fastboot" makes the flash of any partition go
    through: [flash] run after the reboot task sends its [do_flash]. *)
Theorem RebootTask_then_flash_goes_through
    (reboot : RebootTask.t) (self : FlashTask.t) (partition : string) (s : State) :
  RebootTask.reboot_target_ reboot = "userspace"
  \/ RebootTask.reboot_target_ reboot = "fastboot" ->
  is_userspace_fastboot
    (effect WaitForDisconnect (effect reboot_to_userspace_fastboot (world s))) = true ->
  exists s1,
    RebootTask.Run reboot s = Done tt s1
    /\ is_userspace_fastboot (world s1) = true
    /\ bind (RebootTask.Run reboot) (fun _ => FlashTask.flash self partition) s
       = Done tt (act (do_flash partition (FlashTask.fname_ self)
                                (FlashTask.apply_vbmeta_ self)) s1).
Proof.
  intros Htarget Hup.
  assert (Hs1 : exists s1, RebootTask.Run reboot s = Done tt s1
                           /\ is_userspace_fastboot (world s1) = true).
  { rewrite Run_userspace_target by exact Htarget.
    destruct (is_userspace_fastboot (world s)) eqn:E; eauto. }
  destruct Hs1 as (s1 & Hrun & Hmode). exists s1.
  split; [exact Hrun|]. split; [exact Hmode|].
  unfold bind. rewrite Hrun, flash_outcome, Hmode.
  now rewrite andb_false_r.
Qed.

(** X13: On such a device the reboot to "userspace" or "fastboot" is idempotent:
    run twice in a row it does what one run does. *)
Theorem RebootTask_Run_userspace_idempotent (self : RebootTask.t) (s : State) :
  RebootTask.reboot_target_ self = "userspace"
  \/ RebootTask.reboot_target_ self = "fastboot" ->
  is_userspace_fastboot
    (effect WaitForDisconnect (effect reboot_to_userspace_fastboot (world s))) = true ->
  bind (RebootTask.Run self) (fun _ => RebootTask.Run self) s = RebootTask.Run self s.
Proof.
  intros Htarget Hup. unfold bind.
  rewrite (Run_userspace_target self s Htarget).
  destruct (is_userspace_fastboot (world s)) eqn:E;
    rewrite (Run_userspace_target _ _ Htarget).
  - now rewrite E.
  - simpl. now rewrite Hup.
Qed.
End RebootExtras.

Section FatalExits.
Context {World Helper : Type} `{Device World} `{SuperFlashHelper World Helper}.

(** X14: Of the tasks of task.cpp only two end the process themselves:
    [FlashTask], with [die] and the remediation text, and [RebootTask], with
    the syntax error on the target.  The others always return. *)
Theorem fatal_exits_of_the_tasks (s : State) (e : Exit) (msg : string) (s' : State) :
  (forall self, FlashTask.Run self s = Fatal e msg s' ->
                e = Die /\ msg = FlashTask.remediation)
  /\ (forall self, RebootTask.Run self s = Fatal e msg s' ->
                   e = SyntaxError
                   /\ msg = "unknown reboot target " +:+ RebootTask.reboot_target_ self
                   /\ s' = s)
  /\ (forall self, FlashSuperLayoutTask.Run (Helper := Helper) self s <> Fatal e msg s')
  /\ (forall self, UpdateSuperTask.Run self s <> Fatal e msg s')
  /\ (forall self, ResizeTask.Run self s <> Fatal e msg s')
  /\ (forall self, DeleteTask.Run self s <> Fatal e msg s')
  /\ (forall self, WipeTask.Run self s <> Fatal e msg s').
Proof.
  assert (Hreboot : forall self, RebootTask.Run self s = Fatal e msg s' ->
                      e = SyntaxError
                      /\ msg = "unknown reboot target " +:+ RebootTask.reboot_target_ self
                      /\ s' = s).
  { intros self. unfold RebootTask.Run. run.
    repeat (destruct (String.eqb _ _); simpl);
      try destruct (is_userspace_fastboot (world s)); simpl;
      try discriminate; now intros [= <- <- <-]. }
  split; [|split; [exact Hreboot|]]; [|repeat split].
  - intros self. unfold FlashTask.Run, do_for_partitions. run.
    apply for_each_flash_fatal.
  - intros self. unfold FlashSuperLayoutTask.Run, flash_partition_files.
    unfold bind, observe.
    match goal with |- for_each _ ?l s <> _ =>
      destruct (for_each_call (FlashPartition (FlashSuperLayoutTask.super_name_ self)) l s)
        as (s1 & Hrun & _)
    end.
    rewrite Hrun. discriminate.
  - intros self. unfold UpdateSuperTask.Run. run.
    destruct (_ <? 0)%Z; [discriminate|].
    destruct (is_userspace_fastboot (world s)); discriminate.
  - intros self. unfold ResizeTask.Run, do_for_partitions. run.
    rewrite for_each_resize. discriminate.
  - intros self. unfold DeleteTask.Run. run. discriminate.
  - intros self. unfold WipeTask.Run. run.
    destruct (getvar _ _) as [ty|]; [|discriminate].
    destruct (String.eqb ty EmptyString); discriminate.
Qed.
End FatalExits.

(** ** From Initialize to Run *)

Section InitializeThenRun.
Context {World Helper : Type} `{Device World} `{SuperFlashHelper World Helper}.
Import FlashSuperLayoutTask.

(** with a transfer limit in range, the files [Run] sends *)
Lemma Run_sends (self : t Helper) (s : State) :
  (0 < max_download_size (world s) < 2 ^ 31)%Z ->
  exists chunks s',
    Run self s = Done tt s'
    /\ concat chunks = sparse_layout_ self
    /\ trace s' = trace s ++ map (FlashPartition (super_name_ self)) chunks.
Proof.
  intros Hlimit.
  set (layout := sparse_layout_ self).
  set (limit := max_download_size (world s)) in *.
  unfold Run, flash_partition_files, bind, observe.
  fold layout. unfold get_sparse_limit. fold limit.
  destruct (Z.gtb_spec (sparse_file_len layout) limit) as [Hgt|Hle].
  - rewrite to_int_id by lia.
    destruct (Z.eqb_spec limit 0) as [Hzero|_]; [lia|]. simpl.
    destruct (for_each_call (FlashPartition (super_name_ self))
                (resparse_file layout limit) s) as (s' & Hrun & Htr).
    exists (resparse_file layout limit), s'.
    split; [exact Hrun|]. split; [|exact Htr].
    apply split_chunks_concat; lia.
  - destruct (for_each_call (FlashPartition (super_name_ self)) [layout] s)
      as (s' & Hrun & Htr).
    exists [layout], s'. split; [exact Hrun|]. split; [|exact Htr].
    simpl. apply app_nil_r.
Qed.

(** X6: The task [Initialize] hands out, when run on a transport whose limit is
    positive and fits an [int], sends the layout the helper computed, whole
    or in pieces that concatenate to it, to the partition the device named
    as its super partition ("super" when it named none); after the two
    queries of [Initialize] nothing else is sent. *)
Theorem Initialize_then_Run
    fp os_images (s : State) (task : t Helper) rest s1 :
  Initialize fp os_images s = Done (Some task, rest) s1 ->
  (0 < max_download_size (world s) < 2 ^ 31)%Z ->
  let super_name := default "super" (getvar (world s) "super-partition-name") in
  exists chunks s2,
    Run task s1 = Done tt s2
    /\ concat chunks = sparse_layout_ task
    /\ trace s2 =
       trace s ++ [GetVar "super-partition-name";
                   GetVar ("partition-size:" +:+ super_name)]
               ++ map (FlashPartition super_name) chunks.
Proof.
  intros Hinit Hlimit super_name.
  destruct (Initialize_success_inv _ _ _ _ _ _ Hinit)
    as (_ & _ & _ & _ & Hname & _ & _ & Hs1).
  assert (Hworld : world s1 = world s) by (rewrite Hs1; reflexivity).
  destruct (Run_sends task s1) as (chunks & s2 & Hrun & Hcat & Htr);
    [rewrite Hworld; exact Hlimit|].
  exists chunks, s2. split; [exact Hrun|]. split; [exact Hcat|].
  rewrite Htr, Hname, Hs1. simpl. fold super_name.
  now rewrite <- !app_assoc.
Qed.
End InitializeThenRun.

(** ** DmaBuffer *)

Section DmaBufferFacts.
Import DmaBuffer.

Lemma add_all_refs (calls : list (bool * Z)) : forall buffer : t,
  let buffer' := fold_left add_ref calls buffer in
  fdrefs_ buffer' = fdrefs_ buffer ++ map snd (List.filter fst calls)
  /\ maprefs_ buffer' =
     maprefs_ buffer ++ map snd (List.filter (fun c : bool * Z => negb (fst c)) calls)
  /\ inode_ buffer' = inode_ buffer /\ size_ buffer' = size_ buffer
  /\ count_ buffer' = count_ buffer /\ exporter_ buffer' = exporter_ buffer
  /\ name_ buffer' = name_ buffer.
Proof.
  induction calls as [|[[|] pid] calls IH]; intros buffer; simpl.
  - now rewrite !app_nil_r.
  - destruct (IH (AddFdRef buffer pid)) as (Hfd & Hmap & Hrest).
    cbn [add_ref fst snd] in *. rewrite Hfd, Hmap. simpl.
    rewrite <- app_assoc. auto.
  - destruct (IH (AddMapRef buffer pid)) as (Hfd & Hmap & Hrest).
    cbn [add_ref fst snd] in *. rewrite Hfd, Hmap. simpl.
    rewrite <- app_assoc. auto.
Qed.

(** X16: Starting from a freshly constructed buffer, after any sequence of
    [AddFdRef] and [AddMapRef] calls the two vectors hold the pids of the fd
    calls and of the map calls, each in call order and with repeats;
    [total_refs] is the number of calls (as an unsigned 64-bit value); and
    the other getters still give what the constructor was handed. *)
Theorem DmaBuffer_refs_accumulate
    (inode size count : Z) (exporter name : string) (calls : list (bool * Z)) :
  let buffer :=
    fold_left add_ref calls (DmaBuffer inode size count exporter name) in
  fdrefs buffer = map snd (List.filter fst calls)
  /\ maprefs buffer = map snd (List.filter (fun c : bool * Z => negb (fst c)) calls)
  /\ total_refs buffer = (Z.of_nat (length calls) mod 2 ^ 64)%Z
  /\ DmaBuffer.inode buffer = inode /\ DmaBuffer.size buffer = size
  /\ DmaBuffer.count buffer = count /\ DmaBuffer.exporter buffer = exporter
  /\ DmaBuffer.name buffer = name.
Proof.
  intros buffer.
  destruct (add_all_refs calls (DmaBuffer inode size count exporter name))
    as (Hfd & Hmap & Hrest).
  fold buffer in Hfd, Hmap, Hrest. simpl in Hfd, Hmap, Hrest.
  unfold fdrefs, maprefs, total_refs.
  split; [exact Hfd|]. split; [exact Hmap|]. split; [|exact Hrest].
  rewrite Hfd, Hmap, !length_map. f_equal.
  rewrite <- Nat2Z.inj_add. f_equal.
  clear. induction calls as [|[[|] pid] calls IH]; simpl; lia.
Qed.
End DmaBufferFacts.

(** ** The fields of a dataspace *)

Section GraphicsFacts.
Import Graphics.

Lemma land_within (x mask other : Z) :
  Z.land x mask = x -> Z.land mask other = 0%Z -> Z.land x other = 0%Z.
Proof.
  intros Hx Hdisjoint.
  rewrite <- Hx, <- Z.land_assoc, Hdisjoint. apply Z.land_0_r.
Qed.

(** X17: The three fields do not overlap: a dataspace put together by or-ing a
    standard, a transfer and a range, each within its mask, gives each of
    them back under that mask. *)
Theorem dataspace_fields_round_trip (standard transfer range : Z) :
  Z.land standard HAL_DATASPACE_STANDARD_MASK = standard ->
  Z.land transfer HAL_DATASPACE_TRANSFER_MASK = transfer ->
  Z.land range HAL_DATASPACE_RANGE_MASK = range ->
  standard_of (compose standard transfer range) = standard
  /\ transfer_of (compose standard transfer range) = transfer
  /\ range_of (compose standard transfer range) = range.
Proof.
  intros Hs Ht Hr.
  unfold standard_of, transfer_of, range_of, compose.
  rewrite !Z.land_lor_distr_l.
  rewrite Hs, Ht, Hr.
  rewrite (land_within transfer _ HAL_DATASPACE_STANDARD_MASK Ht eq_refl).
  rewrite (land_within range _ HAL_DATASPACE_STANDARD_MASK Hr eq_refl).
  rewrite (land_within standard _ HAL_DATASPACE_TRANSFER_MASK Hs eq_refl).
  rewrite (land_within range _ HAL_DATASPACE_TRANSFER_MASK Hr eq_refl).
  rewrite (land_within standard _ HAL_DATASPACE_RANGE_MASK Hs eq_refl).
  rewrite (land_within transfer _ HAL_DATASPACE_RANGE_MASK Ht eq_refl).
  rewrite !Z.lor_0_r, !Z.lor_0_l. auto.
Qed.

(** X18: The constants of the header agree with the formulas in its comments:
    each mask is the field width shifted to its place, each named standard,
    transfer and range lies within its mask, each composite dataspace is the
    or of the three components its comment names and splits back into them
    under the masks, and the legacy dataspaces carry nothing in any of the
    three fields. *)
Theorem dataspace_constants_are_consistent :
  (HAL_DATASPACE_STANDARD_MASK = Z.shiftl 63 HAL_DATASPACE_STANDARD_SHIFT
   /\ HAL_DATASPACE_TRANSFER_MASK = Z.shiftl 31 HAL_DATASPACE_TRANSFER_SHIFT
   /\ HAL_DATASPACE_RANGE_MASK = Z.shiftl 7 HAL_DATASPACE_RANGE_SHIFT)
  /\ Forall (fun v => standard_of v = v) standards
  /\ Forall (fun v => transfer_of v = v) transfers
  /\ Forall (fun v => range_of v = v) ranges
  /\ Forall (fun c : Z * (Z * Z * Z) =>
               let '(v, (standard, transfer, range)) := c in
               v = compose standard transfer range
               /\ In standard standards /\ In transfer transfers /\ In range ranges
               /\ standard_of v = standard /\ transfer_of v = transfer
               /\ range_of v = range)
            composites
  /\ Forall (fun v => standard_of v = 0 /\ transfer_of v = 0 /\ range_of v = 0)%Z
            legacy.
Proof.
  split; [repeat split|].
  split; [repeat constructor|].
  split; [repeat constructor|].
  split; [repeat constructor|].
  split.
  - unfold composites.
    repeat (constructor;
            [repeat split; try reflexivity; unfold standards, transfers, ranges;
             simpl; auto 20|]).
    constructor.
  - repeat constructor.
Qed.
End GraphicsFacts.

(** ** UpdateSuperTask before a flash *)

Section UpdateSuperExtras.
Context {World : Type} `{Device World}.

(** X15: With the template on the host, on a device that comes up in userspace
    fastboot when told to and stays there through a download and a raw
    command, [UpdateSuperTask] leaves the device in userspace fastboot, so
    that the flash of any partition run after it goes through. *)
Theorem UpdateSuperTask_then_flash_goes_through
    (update : UpdateSuperTask.t) (self : FlashTask.t) (partition : string) (s : State) :
  (0 <= OpenFile (world s) "super_empty.img")%Z ->
  is_userspace_fastboot (effect reboot_to_userspace_fastboot (world s)) = true ->
  (forall name fd size w,
      is_userspace_fastboot (effect (Download name fd size) w) = is_userspace_fastboot w) ->
  (forall cmd msg w,
      is_userspace_fastboot (effect (RawCommand cmd msg) w) = is_userspace_fastboot w) ->
  exists s1,
    UpdateSuperTask.Run update s = Done tt s1
    /\ is_userspace_fastboot (world s1) = true
    /\ bind (UpdateSuperTask.Run update) (fun _ => FlashTask.flash self partition) s
       = Done tt (act (do_flash partition (FlashTask.fname_ self)
                                (FlashTask.apply_vbmeta_ self)) s1).
Proof.
  intros Hfd Hup Hdownload Hraw.
  assert (Hs1 : exists s1, UpdateSuperTask.Run update s = Done tt s1
                           /\ is_userspace_fastboot (world s1) = true).
  { unfold UpdateSuperTask.Run. run.
    apply Z.ltb_ge in Hfd. rewrite Hfd.
    destruct (is_userspace_fastboot (world s)) eqn:E; simpl;
      eexists; (split; [reflexivity|]); simpl;
      rewrite Hraw, Hdownload; assumption. }
  destruct Hs1 as (s1 & Hrun & Hmode). exists s1.
  split; [exact Hrun|]. split; [exact Hmode|].
  unfold bind. rewrite Hrun, flash_outcome, Hmode.
  now rewrite andb_false_r.
Qed.
End UpdateSuperExtras.

(** ** The further properties at work on the bench phone *)

Section MoreOnTheBench.
Import Bench.

Lemma bench_Initialize_runs :
  FlashSuperLayoutTask.Initialize (plan "a") os_images (start phone)
  = Done (Some super_task, [image "boot"; image "vbmeta"])
         (log (GetVar "partition-size:super")
              (log (GetVar "super-partition-name") (start phone))).
Proof. reflexivity. Qed.

Lemma Initialize_task_provenance_witness :
  supports_AB (world (start phone)) = true
  /\ slot (plan "a") <> "all"
  /\ FlashSuperLayoutTask.super_name_ super_task = "super".
Proof.
  destruct (Initialize_task_provenance _ _ _ _ _ _ bench_Initialize_runs)
    as (Hab & Hslot & _ & _ & Hname & _).
  split; [exact Hab|]. split; [exact Hslot|exact Hname].
Defined.

Lemma add_partitions_fails_on_prefix_witness :
  FlashSuperLayoutTask.add_partitions (plan "a") (make_helper phone)
    ([(Build_Image EmptyString "radio" false, EmptyString)] ++ os_images)
  = None.
Proof.
  apply (add_partitions_fails_on_prefix (plan "a") (make_helper phone)
           [(Build_Image EmptyString "radio" false, EmptyString)] os_images).
  reflexivity.
Defined.

Lemma Initialize_residue_is_stable_witness :
  erase_remove_if (FlashSuperLayoutTask.covered (plan "a") super_task)
    [image "boot"; image "vbmeta"]
  = [image "boot"; image "vbmeta"].
Proof.
  exact (proj1 (Initialize_residue_is_stable _ _ _ _ _ _ bench_Initialize_runs)).
Defined.

Lemma Initialize_keeps_all_iff_none_covered_witness :
  (length [image "boot"; image "vbmeta"] <= length os_images)%nat.
Proof.
  exact (proj2 (Initialize_keeps_all_iff_none_covered _ _ _ _ _ _ bench_Initialize_runs)).
Defined.

Lemma Initialize_then_Run_witness :
  exists chunks s2,
    FlashSuperLayoutTask.Run super_task
      (log (GetVar "partition-size:super")
           (log (GetVar "super-partition-name") (start phone)))
    = Done tt s2
    /\ concat chunks = FlashSuperLayoutTask.sparse_layout_ super_task
    /\ trace s2 =
       [] ++ [GetVar "super-partition-name"; GetVar "partition-size:super"]
          ++ map (FlashPartition "super") chunks.
Proof.
  apply (Initialize_then_Run _ _ _ _ _ _ bench_Initialize_runs).
  simpl. lia.
Defined.

(** flashing leaves the bench phone as it is *)
Lemma bench_flash_keeps_refusals p f v (w : rig) q :
  flash_refused (effect (do_flash p f v) w) q = flash_refused w q.
Proof. reflexivity. Qed.

Lemma bench_resize_keeps_logical p size (w : rig) q :
  is_logical (effect (ResizePartition p size) w) q = is_logical w q.
Proof. reflexivity. Qed.

Lemma FlashTask_Run_flashes_all_witness :
  exists s',
    FlashTask.Run (FlashTask.FlashTask "all" "system" "system.img" true) (start fastbootd)
    = Done tt s'
    /\ trace s' = [] ++ map (fun p => do_flash p "system.img" true)
                            ["system_a"; "system_b"].
Proof.
  apply (FlashTask_Run_flashes_all
           (FlashTask.FlashTask "all" "system" "system.img" true) (start fastbootd)
           bench_flash_keeps_refusals).
  intros q _. unfold flash_refused. simpl. apply andb_false_r.
Defined.

(** a phone in the bootloader on which only [boot_b] is dynamic *)
Lemma FlashTask_Run_dies_at_first_refusal_witness :
  let odd := {| in_userspace := false; has_slots := true; variables := [];
                host_files := []; dynamic := ["boot_b"]; download_limit := 4 |} in
  exists s',
    FlashTask.Run (FlashTask.FlashTask "all" "boot" "boot.img" false) (start odd)
    = Fatal Die FlashTask.remediation s'
    /\ trace s' = [] ++ map (fun q => do_flash q "boot.img" false) ["boot_a"].
Proof.
  intros odd.
  apply (FlashTask_Run_dies_at_first_refusal
           (FlashTask.FlashTask "all" "boot" "boot.img" false) (start odd)
           ["boot_a"] [] "boot_b" bench_flash_keeps_refusals).
  - reflexivity.
  - intros q [<-|[]]. reflexivity.
  - reflexivity.
Defined.

Lemma ResizeTask_Run_nothing_logical_witness :
  ResizeTask.Run {| ResizeTask.fp_ := plan "a"; ResizeTask.pname_ := "boot";
                    ResizeTask.size_ := "4096"; ResizeTask.slot_ := "all" |}
                 (start phone)
  = Done tt (start phone).
Proof.
  apply ResizeTask_Run_nothing_logical.
  simpl. intros p [<-|[<-|[]]]; reflexivity.
Defined.

Lemma ResizeTask_Run_resizes_the_logical_witness :
  exists s',
    ResizeTask.Run {| ResizeTask.fp_ := plan "a"; ResizeTask.pname_ := "system";
                      ResizeTask.size_ := "4096"; ResizeTask.slot_ := "all" |}
                   (start phone)
    = Done tt s'
    /\ trace s' = [] ++ map (fun p => ResizePartition p "4096") ["system_a"; "system_b"].
Proof.
  apply (ResizeTask_Run_resizes_the_logical
           {| ResizeTask.fp_ := plan "a"; ResizeTask.pname_ := "system";
              ResizeTask.size_ := "4096"; ResizeTask.slot_ := "all" |}
           (start phone) bench_resize_keeps_logical).
Defined.

Lemma RebootTask_then_flash_goes_through_witness :
  exists s1,
    RebootTask.Run {| RebootTask.reboot_target_ := "fastboot";
                      RebootTask.fp_ := plan "a" |} (start phone) = Done tt s1
    /\ is_userspace_fastboot (world s1) = true
    /\ bind (RebootTask.Run {| RebootTask.reboot_target_ := "fastboot";
                               RebootTask.fp_ := plan "a" |})
            (fun _ => FlashTask.flash
                        (FlashTask.FlashTask EmptyString "system" "system.img" false)
                        "system_a")
            (start phone)
       = Done tt (act (do_flash "system_a" "system.img" false) s1).
Proof.
  apply (RebootTask_then_flash_goes_through
           {| RebootTask.reboot_target_ := "fastboot"; RebootTask.fp_ := plan "a" |}
           (FlashTask.FlashTask EmptyString "system" "system.img" false)
           "system_a" (start phone)).
  - right. reflexivity.
  - reflexivity.
Defined.

Lemma RebootTask_Run_userspace_idempotent_witness :
  bind (RebootTask.Run {| RebootTask.reboot_target_ := "userspace";
                          RebootTask.fp_ := plan "a" |})
       (fun _ => RebootTask.Run {| RebootTask.reboot_target_ := "userspace";
                                   RebootTask.fp_ := plan "a" |})
       (start phone)
  = RebootTask.Run {| RebootTask.reboot_target_ := "userspace";
                      RebootTask.fp_ := plan "a" |} (start phone).
Proof.
  apply RebootTask_Run_userspace_idempotent.
  - left. reflexivity.
  - reflexivity.
Defined.

Lemma UpdateSuperTask_then_flash_goes_through_witness :
  exists s1,
    UpdateSuperTask.Run {| UpdateSuperTask.fp_ := plan "a" |} (start phone) = Done tt s1
    /\ is_userspace_fastboot (world s1) = true
    /\ bind (UpdateSuperTask.Run {| UpdateSuperTask.fp_ := plan "a" |})
            (fun _ => FlashTask.flash
                        (FlashTask.FlashTask EmptyString "system" "system.img" false)
                        "system_a")
            (start phone)
       = Done tt (act (do_flash "system_a" "system.img" false) s1).
Proof.
  apply (UpdateSuperTask_then_flash_goes_through
           {| UpdateSuperTask.fp_ := plan "a" |}
           (FlashTask.FlashTask EmptyString "system" "system.img" false)
           "system_a" (start phone)).
  - simpl. lia.
  - reflexivity.
  - reflexivity.
  - reflexivity.
Defined.

Lemma fatal_exits_of_the_tasks_witness :
  SyntaxError = SyntaxError
  /\ "unknown reboot target edl" = "unknown reboot target " +:+ "edl"
  /\ start phone = start phone.
Proof.
  apply (proj1 (proj2 (fatal_exits_of_the_tasks (Helper := helper)
                         (start phone) SyntaxError "unknown reboot target edl"
                         (start phone)))
           {| RebootTask.reboot_target_ := "edl"; RebootTask.fp_ := plan "a" |}).
  reflexivity.
Defined.

Lemma dataspace_fields_round_trip_witness :
  Graphics.standard_of Graphics.HAL_DATASPACE_V0_SRGB = Graphics.HAL_DATASPACE_STANDARD_BT709
  /\ Graphics.transfer_of Graphics.HAL_DATASPACE_V0_SRGB = Graphics.HAL_DATASPACE_TRANSFER_SRGB
  /\ Graphics.range_of Graphics.HAL_DATASPACE_V0_SRGB = Graphics.HAL_DATASPACE_RANGE_FULL.
Proof.
  apply (dataspace_fields_round_trip Graphics.HAL_DATASPACE_STANDARD_BT709
           Graphics.HAL_DATASPACE_TRANSFER_SRGB Graphics.HAL_DATASPACE_RANGE_FULL);
    reflexivity.
Defined.
End MoreOnTheBench.
